(** * Company fundamentals microservice: a shallow embedding

    The development follows the three source files of the service:
    - [app/schemas.py]: the pydantic response models,
    - [app/fmp_client.py]: the client of the upstream provider,
    - [app/main.py]: the three company endpoints and the error handler.

    Upstream JSON is modelled as the values Python's [json] module
    produces, dictionaries as finite maps from strings, and Python
    exceptions as an error type threaded through a small monad that also
    records every HTTP call the client makes. *)

From Stdlib Require Import ZArith String Ascii List DecimalString SpecFloat.
From stdpp Require Import base strings gmap list.

Set Warnings "-register-all".
Open Scope Z_scope.

(** ** Python values *)

(** A Python [float] read from JSON: a signed zero, or the sign,
    mantissa and exponent of a finite binary64 number. JSON has neither
    NaN nor the infinities, and they stay outside the model. *)
Inductive pyfloat : Type :=
| FZero (negative : bool)
| FFinite (negative : bool) (mantissa : positive) (exponent : Z).

(** What [resp.json()] returns: [None], [bool], [int], [float], [str],
    [list] and [dict] with string keys. A [str] is a sequence of
    characters, each stood for by an [ascii]. *)
Inductive json : Type :=
| JNull
| JBool (b : bool)
| JInt (z : Z)
| JFloat (f : pyfloat)
| JStr (s : string)
| JArr (l : list json)
| JObj (m : gmap string json).

(** Python truth value testing, as used by [not x] and [x or y]. *)
Definition truthy (v : json) : bool :=
  match v with
  | JNull => false
  | JBool b => b
  | JInt z => negb (z =? 0)
  | JFloat (FZero _) => false
  | JFloat (FFinite _ _ _) => true
  | JStr s => negb (String.eqb s EmptyString)
  | JArr l => match l with [] => false | _ :: _ => true end
  | JObj m => negb (bool_decide (m = ∅))
  end.

(** [a or b]: the first operand when it is truthy, the second otherwise. *)
Definition py_or (a b : json) : json := if truthy a then a else b.

(** [d.get(k)] on a dictionary: the value, or [None] for a missing key. *)
Definition dict_get (m : gmap string json) (k : string) : json :=
  default JNull (m !! k).

(** Exceptions the service can meet. [RuntimeError] is raised by the
    client, [HTTPException] by the endpoints, [ValidationError] by the
    pydantic constructors; [Timeout] and [ConnectionError] are the
    [requests.exceptions] classes (subclasses of [OSError]),
    [JSONDecodeError] and [RecursionError] come from [resp.json()], and
    the last four are the built-in errors of dynamically typed access. *)
Inductive exn : Type :=
| RuntimeError (msg : string)
| RecursionError (msg : string)
| HTTPException (status_code : Z) (detail : string)
| ValidationError (model : string)
| Timeout
| ConnectionError
| JSONDecodeError
| TypeError
| AttributeError
| KeyError
| IndexError.

(** [isinstance(e, RuntimeError)]: [RecursionError] derives from
    [RuntimeError], none of the other classes does. *)
Definition is_RuntimeError (e : exn) : bool :=
  match e with RuntimeError _ | RecursionError _ => true | _ => false end.

Inductive result (A : Type) : Type :=
| Ok (a : A)
| Err (e : exn).
Arguments Ok {A} a.
Arguments Err {A} e.

#[global] Instance result_ret : MRet result := fun A a => Ok a.
#[global] Instance result_bind : MBind result := fun A B f r =>
  match r with Ok a => f a | Err e => Err e end.

(** A [for] loop that appends [f x] for each element and stops at the
    first exception. *)
Fixpoint for_each {A B : Type} (f : A → result B) (l : list A) : result (list B) :=
  match l with
  | [] => Ok []
  | x :: l' =>
      match f x with
      | Ok y => match for_each f l' with Ok ys => Ok (y :: ys) | Err e => Err e end
      | Err e => Err e
      end
  end.

(** [v.get(k)] on an arbitrary value: only dictionaries have [get]. *)
Definition py_get (v : json) (k : string) : result json :=
  match v with
  | JObj m => Ok (dict_get m k)
  | _ => Err AttributeError
  end.

(** [v[0]]. A dictionary from JSON has string keys only, so the integer
    key [0] is never found. *)
Definition py_getitem0 (v : json) : result json :=
  match v with
  | JArr (x :: _) => Ok x
  | JArr [] => Err IndexError
  | JStr (String c _) => Ok (JStr (String c EmptyString))
  | JStr EmptyString => Err IndexError
  | JObj _ => Err KeyError
  | JNull | JBool _ | JInt _ | JFloat _ => Err TypeError
  end.

Fixpoint chars (s : string) : list json :=
  match s with
  | EmptyString => []
  | String c s' => JStr (String c EmptyString) :: chars s'
  end.

(** [for item in v]: a list yields its elements, a string its
    characters, a dictionary its keys. *)
Definition py_iter (v : json) : result (list json) :=
  match v with
  | JArr l => Ok l
  | JStr s => Ok (chars s)
  | JObj m => Ok ((λ kv, JStr kv.1) <$> map_to_list m)
  | JNull | JBool _ | JInt _ | JFloat _ => Err TypeError
  end.

(** [str.upper()] on ASCII text. *)
Definition upper_ascii (c : ascii) : ascii :=
  let n := N_of_ascii c in
  if ((97 <=? n) && (n <=? 122))%N then ascii_of_N (n - 32) else c.

Fixpoint upper (s : string) : string :=
  match s with
  | EmptyString => EmptyString
  | String c s' => String (upper_ascii c) (upper s')
  end.

(** [s.lstrip("/")] and [s.rstrip("/")]. *)
Fixpoint lstrip_slash (s : string) : string :=
  match s with
  | String "/"%char s' => lstrip_slash s'
  | _ => s
  end.

Definition rstrip_slash (s : string) : string :=
  String.rev (lstrip_slash (String.rev s)).

(** [str(n)] for an integer. *)
Definition str_of_int (z : Z) : string := NilZero.string_of_int (Z.to_int z).

(** [s[:n]]. *)
Definition str_prefix (n : nat) (s : string) : string := String.substring 0 n s.

(** ** [app/schemas.py] *)

(** Pydantic converts some scalars of another type to the declared one
    (an [int] offered for a [float] field, a numeric string, ...). Which
    conversions exist depends on the release of the library, so they stay
    an interface; everything below holds for each implementation. *)
Class Lax : Type := {
  str_of_scalar : json → option string;
  float_of_scalar : json → option pyfloat
}.

Section Fields.
Context {L : Lax}.

(** A field annotated [str]. *)
Definition validate_str (v : json) : option string :=
  match v with
  | JStr s => Some s
  | JBool _ | JInt _ | JFloat _ => str_of_scalar v
  | JNull | JArr _ | JObj _ => None
  end.

(** A field annotated [float]. *)
Definition validate_float (v : json) : option pyfloat :=
  match v with
  | JFloat f => Some f
  | JBool _ | JInt _ | JStr _ => float_of_scalar v
  | JNull | JArr _ | JObj _ => None
  end.

(** A field annotated [Optional[T]]: [None] is accepted as it is. *)
Definition validate_optional {T : Type} (validate : json → option T) (v : json)
  : option (option T) :=
  match v with
  | JNull => Some None
  | _ => Some <$> validate v
  end.
End Fields.

(** The models. Each module holds the record of a [BaseModel] subclass
    and [new], its constructor: all fields are validated, and a field
    that fails raises [ValidationError]. *)

Module CompanySearchItem.
Record t : Type := mk {
  symbol : string;
  name : string;
  exchange : option string;
  currency : option string
}.

Definition new {L : Lax} (symbol name exchange currency : json) : result t :=
  match validate_str symbol, validate_str name,
        validate_optional validate_str exchange,
        validate_optional validate_str currency with
  | Some s, Some n, Some e, Some c => Ok (mk s n e c)
  | _, _, _, _ => Err (ValidationError "CompanySearchItem")
  end.
End CompanySearchItem.

Module CompanySearchResponse.
Record t : Type := mk { results : list CompanySearchItem.t }.
End CompanySearchResponse.

Module IncomeSnapshot.
Record t : Type := mk {
  revenue : option pyfloat;
  netIncome : option pyfloat
}.

Definition new {L : Lax} (revenue netIncome : json) : result t :=
  match validate_optional validate_float revenue,
        validate_optional validate_float netIncome with
  | Some r, Some n => Ok (mk r n)
  | _, _ => Err (ValidationError "IncomeSnapshot")
  end.
End IncomeSnapshot.

Module BalanceSheetSnapshot.
Record t : Type := mk {
  totalAssets : option pyfloat;
  totalLiabilities : option pyfloat
}.

Definition new {L : Lax} (totalAssets totalLiabilities : json) : result t :=
  match validate_optional validate_float totalAssets,
        validate_optional validate_float totalLiabilities with
  | Some a, Some l => Ok (mk a l)
  | _, _ => Err (ValidationError "BalanceSheetSnapshot")
  end.
End BalanceSheetSnapshot.

Module CashFlowSnapshot.
Record t : Type := mk { operatingCashFlow : option pyfloat }.

Definition new {L : Lax} (operatingCashFlow : json) : result t :=
  match validate_optional validate_float operatingCashFlow with
  | Some o => Ok (mk o)
  | None => Err (ValidationError "CashFlowSnapshot")
  end.
End CashFlowSnapshot.

Module CompanySnapshot.
Record t : Type := mk {
  symbol : string;
  name : option string;
  currency : option string;
  exchange : option string;
  asOf : option string;
  income : IncomeSnapshot.t;
  balanceSheet : BalanceSheetSnapshot.t;
  cashFlow : CashFlowSnapshot.t
}.

(** [symbol] is always built by [str(...)], and the three statements are
    model instances already; the other four come from upstream. *)
Definition new {L : Lax} (symbol : string) (name currency exchange asOf : json)
    (income : IncomeSnapshot.t) (balanceSheet : BalanceSheetSnapshot.t)
    (cashFlow : CashFlowSnapshot.t) : result t :=
  match validate_optional validate_str name,
        validate_optional validate_str currency,
        validate_optional validate_str exchange,
        validate_optional validate_str asOf with
  | Some n, Some c, Some e, Some d =>
      Ok (mk symbol n c e d income balanceSheet cashFlow)
  | _, _, _, _ => Err (ValidationError "CompanySnapshot")
  end.
End CompanySnapshot.

Module HistoryPoint.
Record t : Type := mk {
  date : string;
  revenue : option pyfloat;
  netIncome : option pyfloat
}.

Definition new {L : Lax} (date revenue netIncome : json) : result t :=
  match validate_str date,
        validate_optional validate_float revenue,
        validate_optional validate_float netIncome with
  | Some d, Some r, Some n => Ok (mk d r n)
  | _, _, _ => Err (ValidationError "HistoryPoint")
  end.
End HistoryPoint.

Module CompanyHistoryResponse.
Record t : Type := mk {
  symbol : string;
  points : list HistoryPoint.t
}.
End CompanyHistoryResponse.

(** ** The upstream provider and the calls made to it *)

(** What [resp.json()] makes of a body: the parsed value;
    [JSONDecodeError] for a text that is not JSON; or [RecursionError],
    with its message, for a body nested deeper than the decoder can
    follow, be it JSON or not. *)
Inductive decoded : Type :=
| Decoded (j : json)
| NotJSON
| TooDeep (msg : string).

(** What [requests.get] hands back: the status line, the body text, and
    what [resp.json()] makes of the body. *)
Record Response : Type := {
  status_code : Z;
  text : string;
  json_body : decoded
}.

(** [resp.ok]: false exactly for the 4xx and 5xx codes. *)
Definition ok (resp : Response) : bool :=
  negb ((400 <=? status_code resp) && (status_code resp <? 600)).

Record Request : Type := {
  url : string;
  params : list (string * json);
  timeout : Z
}.

Inductive outcome : Type :=
| Responded (resp : Response)
| TimedOut
| ConnectionFailed.

(** The provider is any function from the number of calls made so far
    and the request to an outcome. *)
Definition upstream : Type := nat → Request → outcome.

Definition call : Type := Request * outcome.

(** Computations that may call the provider: they read it, extend the log
    of calls, and return a value or raise. *)
Definition M (A : Type) : Type := upstream → list call → result A * list call.

#[global] Instance M_ret : MRet M := fun A a _ log => (Ok a, log).
#[global] Instance M_bind : MBind M := fun A B f m up log =>
  match m up log with
  | (Ok a, log') => f a up log'
  | (Err e, log') => (Err e, log')
  end.

Definition raise {A : Type} (e : exn) : M A := fun _ log => (Err e, log).

Definition lift {A : Type} (r : result A) : M A := fun _ log => (r, log).

(** [requests.get(url, params=params, timeout=timeout)]. *)
Definition requests_get (url : string) (params : list (string * json)) (timeout : Z)
  : M Response :=
  fun up log =>
    let rq := {| url := url; params := params; timeout := timeout |} in
    let o := up (length log) rq in
    (match o with
     | Responded resp => Ok resp
     | TimedOut => Err Timeout
     | ConnectionFailed => Err ConnectionError
     end, log ++ [(rq, o)]).

(** [resp.json()]. *)
Definition resp_json (resp : Response) : result json :=
  match json_body resp with
  | Decoded j => Ok j
  | NotJSON => Err JSONDecodeError
  | TooDeep msg => Err (RecursionError msg)
  end.

(** [params[k] = v] on a dictionary kept in insertion order. *)
Fixpoint params_set (k : string) (v : json) (ps : list (string * json))
  : list (string * json) :=
  match ps with
  | [] => [(k, v)]
  | (k', v') :: ps' =>
      if String.eqb k k' then (k', v) :: ps' else (k', v') :: params_set k v ps'
  end.

(** ** [app/fmp_client.py] *)

Module FMPClient.
Record t : Type := mk {
  api_key : string;
  base_url : string
}.

Definition init (api_key base_url : string) : t :=
  mk api_key (rstrip_slash base_url).

Definition error_message (resp : Response) : string :=
  "FMP API error: " +:+ str_of_int (status_code resp) +:+ " "
    +:+ str_prefix 200 (text resp).

Definition _get (self : t) (endpoint : string) (params : list (string * json))
  : M json :=
  let params := params_set "apikey" (JStr (api_key self)) params in
  let url := base_url self +:+ "/" +:+ lstrip_slash endpoint in
  resp ← requests_get url params 10;
  if negb (ok resp) then raise (RuntimeError (error_message resp))
  else lift (resp_json resp).

Definition search_symbol (self : t) (query : string) (limit : Z) : M json :=
  _get self "search-symbol"
    [("query", JStr query); ("limit", JInt limit);
     ("exchange", JStr "NASDAQ,NYSE,AMEX")].

Definition get_company_profile (self : t) (symbol : string) : M json :=
  _get self "profile" [("symbol", JStr (upper symbol))].

Definition get_income_statement (self : t) (symbol period : string) (limit : Z)
  : M json :=
  _get self "income-statement"
    [("symbol", JStr (upper symbol)); ("period", JStr period);
     ("limit", JInt limit)].

Definition get_balance_sheet (self : t) (symbol period : string) (limit : Z)
  : M json :=
  _get self "balance-sheet-statement"
    [("symbol", JStr (upper symbol)); ("period", JStr period);
     ("limit", JInt limit)].

Definition get_cash_flow (self : t) (symbol period : string) (limit : Z)
  : M json :=
  _get self "cash-flow-statement"
    [("symbol", JStr (upper symbol)); ("period", JStr period);
     ("limit", JInt limit)].
End FMPClient.

(** ** [app/main.py] *)

(** [v.get(k1) or v.get(k2)]; the second lookup only happens when the
    first value is falsy. *)
Definition py_get_or (v : json) (k1 k2 : string) : result json :=
  a ← py_get v k1;
  if truthy a then mret a else py_get v k2.

(** [l[0] if l else {}]. *)
Definition first_or_empty (l : json) : result json :=
  if truthy l then py_getitem0 l else Ok (JObj ∅).

Section Endpoints.
Context {L : Lax}.
Variable client : FMPClient.t.

(** The body of the loop of [search_companies]. *)
Definition search_item (item : json) : result CompanySearchItem.t :=
  symbol ← py_get item "symbol";
  name ← py_get_or item "name" "companyName";
  exchange ← py_get item "stockExchange";
  currency ← py_get item "currency";
  CompanySearchItem.new symbol name exchange currency.

Definition search_companies (q : string) (limit : Z) : M CompanySearchResponse.t :=
  raw ← FMPClient.search_symbol client q limit;
  lift (items ← py_iter raw;
        results ← for_each search_item items;
        mret (CompanySearchResponse.mk results)).

(** Lines 84 to 120 of [company_snapshot]: everything after the four
    calls have returned. *)
Definition build_snapshot (symbol : string) (name currency exchange : json)
    (income_list balance_list cashflow_list : json) : result CompanySnapshot.t :=
  income_raw ← first_or_empty income_list;
  balance_raw ← first_or_empty balance_list;
  cashflow_raw ← first_or_empty cashflow_list;
  as_of ← (d ← py_get income_raw "date";
           if truthy d then mret d else
           d ← py_get balance_raw "date";
           if truthy d then mret d else py_get cashflow_raw "date");
  income ← (revenue ← py_get_or income_raw "revenue" "revenueTTM";
            netIncome ← py_get_or income_raw "netIncome" "netIncomeTTM";
            IncomeSnapshot.new revenue netIncome);
  balance ← (totalAssets ← py_get balance_raw "totalAssets";
             totalLiabilities ← py_get balance_raw "totalLiabilities";
             BalanceSheetSnapshot.new totalAssets totalLiabilities);
  cashflow ← (operatingCashFlow ←
                py_get_or cashflow_raw "operatingCashFlow" "operatingCashFlowTTM";
              CashFlowSnapshot.new operatingCashFlow);
  CompanySnapshot.new (upper symbol) name currency exchange as_of
    income balance cashflow.

Definition company_snapshot (symbol : string) : M CompanySnapshot.t :=
  profiles ← FMPClient.get_company_profile client symbol;
  if negb (truthy profiles)
  then raise (HTTPException 404 "Company profile not found")
  else
    profile ← lift (py_getitem0 profiles);
    name ← lift (py_get_or profile "companyName" "name");
    currency ← lift (py_get profile "currency");
    exchange ← lift (py_get_or profile "exchangeShortName" "exchange");
    income_list ← FMPClient.get_income_statement client symbol "annual" 1;
    balance_list ← FMPClient.get_balance_sheet client symbol "annual" 1;
    cashflow_list ← FMPClient.get_cash_flow client symbol "annual" 1;
    lift (build_snapshot symbol name currency exchange
            income_list balance_list cashflow_list).

(** The body of the loop of [company_history]. *)
Definition history_point (row : json) : result HistoryPoint.t :=
  date ← py_get row "date";
  revenue ← py_get row "revenue";
  netIncome ← py_get row "netIncome";
  HistoryPoint.new date revenue netIncome.

Definition company_history (symbol : string) (years : Z)
  : M CompanyHistoryResponse.t :=
  income_list ← FMPClient.get_income_statement client symbol "annual" years;
  if negb (truthy income_list)
  then raise (HTTPException 404 "No income statement data found")
  else
    lift (rows ← py_iter income_list;
          points ← for_each history_point rows;
          mret (CompanyHistoryResponse.mk (upper symbol) points)).
End Endpoints.

(** ** The application: routing, request validation, error handling *)

Inductive content : Type :=
| Health
| SearchResults (r : CompanySearchResponse.t)
| Snapshot (s : CompanySnapshot.t)
| History (h : CompanyHistoryResponse.t)
| Detail (detail : string)
| RequestValidationErrors
| InternalServerError.

Record HTTPResponse : Type := {
  status : Z;
  body : content
}.

(** [str(exc)]. *)
Definition exn_str (e : exn) : string :=
  match e with
  | RuntimeError msg => msg
  | RecursionError msg => msg
  | HTTPException _ detail => detail
  | _ => EmptyString
  end.

(** The handler registered for [RuntimeError]. *)
Definition runtime_error_handler (exc : exn) : HTTPResponse :=
  {| status := 502; body := Detail (exn_str exc) |}.

(** What the framework makes of the outcome of an endpoint function: a
    returned model is a 200, an [HTTPException] carries its own status, a
    [RuntimeError] goes to its handler, and every other exception is
    answered by the server-error middleware. *)
Definition respond {A : Type} (render : A → content) (r : result A) : HTTPResponse :=
  match r with
  | Ok a => {| status := 200; body := render a |}
  | Err (HTTPException code detail) => {| status := code; body := Detail detail |}
  | Err e =>
      if is_RuntimeError e then runtime_error_handler e
      else {| status := 500; body := InternalServerError |}
  end.

(** An inbound request, its query parameters already parsed; [None] is a
    parameter left out. *)
Inductive inbound : Type :=
| GET_health
| GET_search (q : option string) (limit : option Z)
| GET_snapshot (symbol : string)
| GET_history (symbol : string) (years : option Z).

Definition unprocessable : HTTPResponse :=
  {| status := 422; body := RequestValidationErrors |}.

Definition health_check : content := Health.

Section App.
Context {L : Lax}.
Variable client : FMPClient.t.

Definition serve {A : Type} (render : A → content) (m : M A) : upstream → HTTPResponse * list call :=
  fun up => let (r, log) := m up [] in (respond render r, log).

(** [Query(..., min_length=1)], [Query(10, ge=1, le=50)] and
    [Query(5, ge=1, le=20)] are checked before the endpoint runs. *)
Definition app (rq : inbound) (up : upstream) : HTTPResponse * list call :=
  match rq with
  | GET_health => ({| status := 200; body := health_check |}, [])
  | GET_search q limit =>
      match q with
      | None => (unprocessable, [])
      | Some q =>
          let limit := default 10 limit in
          if (1 <=? Z.of_nat (String.length q)) && (1 <=? limit) && (limit <=? 50)
          then serve SearchResults (search_companies client q limit) up
          else (unprocessable, [])
      end
  | GET_snapshot symbol => serve Snapshot (company_snapshot client symbol) up
  | GET_history symbol years =>
      let years := default 5 years in
      if (1 <=? years) && (years <=? 20)
      then serve History (company_history client symbol years) up
      else (unprocessable, [])
  end.
End App.

(** ** Vocabulary of the statements *)

(** The request [_get] sends for an endpoint name and its parameters. *)
Definition request_of (self : FMPClient.t) (endpoint : string)
    (params : list (string * json)) : Request :=
  {| url := FMPClient.base_url self +:+ "/" +:+ lstrip_slash endpoint;
     params := params_set "apikey" (JStr (FMPClient.api_key self)) params;
     timeout := 10 |}.

Definition statement_params (symbol : string) (limit : Z) : list (string * json) :=
  [("symbol", JStr (upper symbol)); ("period", JStr "annual"); ("limit", JInt limit)].

Definition search_request (self : FMPClient.t) (q : string) (limit : Z) : Request :=
  request_of self "search-symbol"
    [("query", JStr q); ("limit", JInt limit); ("exchange", JStr "NASDAQ,NYSE,AMEX")].

Definition profile_request (self : FMPClient.t) (symbol : string) : Request :=
  request_of self "profile" [("symbol", JStr (upper symbol))].

Definition income_request (self : FMPClient.t) (symbol : string) (limit : Z) : Request :=
  request_of self "income-statement" (statement_params symbol limit).

Definition balance_request (self : FMPClient.t) (symbol : string) : Request :=
  request_of self "balance-sheet-statement" (statement_params symbol 1).

Definition cashflow_request (self : FMPClient.t) (symbol : string) : Request :=
  request_of self "cash-flow-statement" (statement_params symbol 1).

(** What [_get] makes of an outcome of [requests.get]. *)
Definition reply (o : outcome) : result json :=
  match o with
  | Responded resp =>
      if ok resp then resp_json resp else Err (RuntimeError (FMPClient.error_message resp))
  | TimedOut => Err Timeout
  | ConnectionFailed => Err ConnectionError
  end.

(** The [n]-th call of a run, carrying request [rq], returns the parsed
    body [j] with a successful status. *)
Definition returns (up : upstream) (n : nat) (rq : Request) (j : json) : Prop :=
  ∃ resp, up n rq = Responded resp ∧ ok resp = true ∧ json_body resp = Decoded j.

(** The four calls of a snapshot run all return. *)
Definition answers (up : upstream) (self : FMPClient.t) (symbol : string)
    (profiles income_list balance_list cashflow_list : json) : Prop :=
  returns up 0 (profile_request self symbol) profiles
  ∧ returns up 1 (income_request self symbol 1) income_list
  ∧ returns up 2 (balance_request self symbol) balance_list
  ∧ returns up 3 (cashflow_request self symbol) cashflow_list.

(** A call goes to one of the three statement endpoints. *)
Definition statement_call (self : FMPClient.t) (c : call) : Prop :=
  ∃ symbol limit,
    c.1 = income_request self symbol limit
    ∨ c.1 = request_of self "balance-sheet-statement" (statement_params symbol limit)
    ∨ c.1 = request_of self "cash-flow-statement" (statement_params symbol limit).

(** [sub] occurs in [s]. *)
Definition mentions (s sub : string) : Prop :=
  ∃ before after, s = before +:+ sub +:+ after.

(** The exception, if any, that an outcome makes [_get] raise before it
    reads the body. *)
Definition fatal (o : outcome) : option exn :=
  match o with
  | Responded resp =>
      if ok resp then None else Some (RuntimeError (FMPClient.error_message resp))
  | TimedOut => Some Timeout
  | ConnectionFailed => Some ConnectionError
  end.

(** A computation only appends calls, each with the ten-second timeout,
    and a call that ends fatally ends the computation with that
    exception. *)
Definition fail_fast {A : Type} (m : M A) : Prop :=
  ∀ up log, ∃ new,
    (m up log).2 = log ++ new
    ∧ Forall (λ c : call, timeout c.1 = 10) new
    ∧ ∀ c e, c ∈ new → fatal c.2 = Some e → (m up log).1 = Err e.

(** The spec's rule for [asOf]: income, then balance sheet, then cash
    flow, the first non-empty date wins (and when none is non-empty the
    last one is taken as it is). *)
Definition asOf_priority (income_date balance_date cashflow_date : json) : json :=
  if truthy income_date then income_date
  else if truthy balance_date then balance_date
  else cashflow_date.

(** ** Runs of the endpoints, call by call *)

(** The three values [company_snapshot] reads from the profile list
    before it asks for the statements. *)
Definition profile_fields (profiles : json) : result (json * json * json) :=
  profile ← py_getitem0 profiles;
  name ← py_get_or profile "companyName" "name";
  currency ← py_get profile "currency";
  exchange ← py_get_or profile "exchangeShortName" "exchange";
  mret (name, currency, exchange).

Definition snapshot_run {L : Lax} (client : FMPClient.t) (symbol : string)
    (up : upstream) : result CompanySnapshot.t * list call :=
  let c0 := (profile_request client symbol, up 0%nat (profile_request client symbol)) in
  let c1 := (income_request client symbol 1, up 1%nat (income_request client symbol 1)) in
  let c2 := (balance_request client symbol, up 2%nat (balance_request client symbol)) in
  let c3 := (cashflow_request client symbol, up 3%nat (cashflow_request client symbol)) in
  match reply c0.2 with
  | Err e => (Err e, [c0])
  | Ok profiles =>
      if negb (truthy profiles)
      then (Err (HTTPException 404 "Company profile not found"), [c0])
      else
        match profile_fields profiles with
        | Err e => (Err e, [c0])
        | Ok (name, currency, exchange) =>
            match reply c1.2 with
            | Err e => (Err e, [c0; c1])
            | Ok income_list =>
                match reply c2.2 with
                | Err e => (Err e, [c0; c1; c2])
                | Ok balance_list =>
                    match reply c3.2 with
                    | Err e => (Err e, [c0; c1; c2; c3])
                    | Ok cashflow_list =>
                        (build_snapshot symbol name currency exchange
                           income_list balance_list cashflow_list,
                         [c0; c1; c2; c3])
                    end
                end
            end
        end
  end.

(** ** Records that fit the schema *)

Definition is_str (v : json) : Prop := ∃ s, v = JStr s.

Definition str_or_absent (v : json) : Prop := v = JNull ∨ is_str v.

Definition opt_str (o : option string) : json :=
  match o with Some s => JStr s | None => JNull end.

(** A value an [Optional[float]] field accepts. *)
Definition accepts_float {L : Lax} (v : json) : Prop :=
  is_Some (validate_optional validate_float v).

(** The record at the head of a list, if there is one, fits. *)
Definition head_ok (fits : gmap string json → Prop) (l : list json) : Prop :=
  match l with
  | [] => True
  | JObj m :: _ => fits m
  | _ :: _ => False
  end.

(** [l[0] if l else {}] for such a list. *)
Definition record_of (l : list json) : gmap string json :=
  match l with
  | JObj m :: _ => m
  | _ => ∅
  end.

Definition profile_ok (p : gmap string json) : Prop :=
  str_or_absent (dict_get p "companyName") ∧ str_or_absent (dict_get p "name")
  ∧ str_or_absent (dict_get p "currency")
  ∧ str_or_absent (dict_get p "exchangeShortName")
  ∧ str_or_absent (dict_get p "exchange").

Definition income_ok {L : Lax} (m : gmap string json) : Prop :=
  str_or_absent (dict_get m "date")
  ∧ accepts_float (dict_get m "revenue") ∧ accepts_float (dict_get m "revenueTTM")
  ∧ accepts_float (dict_get m "netIncome") ∧ accepts_float (dict_get m "netIncomeTTM").

Definition balance_ok {L : Lax} (m : gmap string json) : Prop :=
  str_or_absent (dict_get m "date")
  ∧ accepts_float (dict_get m "totalAssets")
  ∧ accepts_float (dict_get m "totalLiabilities").

Definition cashflow_ok {L : Lax} (m : gmap string json) : Prop :=
  str_or_absent (dict_get m "date")
  ∧ accepts_float (dict_get m "operatingCashFlow")
  ∧ accepts_float (dict_get m "operatingCashFlowTTM").

(** A row of the income statement that [HistoryPoint] accepts, and the
    point that holds its three values. *)
Definition row_ok {L : Lax} (m : gmap string json) : Prop :=
  is_str (dict_get m "date")
  ∧ accepts_float (dict_get m "revenue") ∧ accepts_float (dict_get m "netIncome").

Definition row_maps {L : Lax} (m : gmap string json) (pt : HistoryPoint.t) : Prop :=
  dict_get m "date" = JStr (HistoryPoint.date pt)
  ∧ validate_optional validate_float (dict_get m "revenue")
    = Some (HistoryPoint.revenue pt)
  ∧ validate_optional validate_float (dict_get m "netIncome")
    = Some (HistoryPoint.netIncome pt).

(** A search record that [CompanySearchItem] accepts, and the item that
    holds its values. *)
Definition item_ok (m : gmap string json) : Prop :=
  is_str (dict_get m "symbol")
  ∧ is_str (py_or (dict_get m "name") (dict_get m "companyName"))
  ∧ str_or_absent (dict_get m "stockExchange")
  ∧ str_or_absent (dict_get m "currency").

Definition item_maps (m : gmap string json) (item : CompanySearchItem.t) : Prop :=
  dict_get m "symbol" = JStr (CompanySearchItem.symbol item)
  ∧ py_or (dict_get m "name") (dict_get m "companyName")
    = JStr (CompanySearchItem.name item)
  ∧ dict_get m "stockExchange" = opt_str (CompanySearchItem.exchange item)
  ∧ dict_get m "currency" = opt_str (CompanySearchItem.currency item).

(** ** The three claims that hold on fitting records only, as stated

    Each is read for one implementation [L] of the conversions. *)

Definition snapshot_never_fails_on_empty_statements (L : Lax) : Prop :=
  ∀ (client : FMPClient.t) (symbol : string) (up : upstream)
    (p : gmap string json) (ps li lb lc : list json),
    answers up client symbol (JArr (JObj p :: ps)) (JArr li) (JArr lb) (JArr lc) →
    li = [] ∨ lb = [] ∨ lc = [] →
    ∃ snap,
      (app client (GET_snapshot symbol) up).1 = {| status := 200; body := Snapshot snap |}
      ∧ (li = [] → CompanySnapshot.income snap = IncomeSnapshot.mk None None)
      ∧ (lb = [] → CompanySnapshot.balanceSheet snap = BalanceSheetSnapshot.mk None None)
      ∧ (lc = [] → CompanySnapshot.cashFlow snap = CashFlowSnapshot.mk None).

Definition history_has_a_point_for_every_row (L : Lax) : Prop :=
  ∀ (client : FMPClient.t) (symbol : string) (years : option Z)
    (up : upstream) (rows : list (gmap string json)),
    1 ≤ default 5 years ≤ 20 →
    rows ≠ [] →
    returns up 0 (income_request client symbol (default 5 years)) (JArr (JObj <$> rows)) →
    ∃ h,
      (app client (GET_history symbol years) up).1 = {| status := 200; body := History h |}
      ∧ Forall2 row_maps rows (CompanyHistoryResponse.points h).

Definition search_maps_every_record (L : Lax) : Prop :=
  ∀ (client : FMPClient.t) (q : string) (limit : option Z)
    (up : upstream) (raw : list (gmap string json)),
    q ≠ EmptyString →
    1 ≤ default 10 limit ≤ 50 →
    returns up 0 (search_request client q (default 10 limit)) (JArr (JObj <$> raw)) →
    ∃ r,
      (app client (GET_search (Some q) limit) up).1
      = {| status := 200; body := SearchResults r |}
      ∧ Forall2 item_maps raw (CompanySearchResponse.results r).

(** C4 as the specification words it, the success range being the codes
    200 to 299. *)
Definition every_other_status_is_an_upstream_error (L : Lax) : Prop :=
  (∀ (client : FMPClient.t) endpoint ps (up : upstream) (log : list call) resp,
     up (length log) (request_of client endpoint ps) = Responded resp →
     ¬ (200 ≤ status_code resp < 300) →
     ∃ excerpt,
       (FMPClient._get client endpoint ps up log).1
       = Err (RuntimeError
                ("FMP API error: " +:+ str_of_int (status_code resp) +:+ " "
                   +:+ excerpt))
       ∧ (String.length excerpt ≤ 200)%nat
       ∧ String.prefix excerpt (text resp) = true)
  ∧ (∀ (client : FMPClient.t) rq (up : upstream) (c : call) resp,
       c ∈ (app client rq up).2 → c.2 = Responded resp →
       ¬ (200 ≤ status_code resp < 300) →
       ∃ detail,
         (app client rq up).1 = {| status := 502; body := Detail detail |}
         ∧ mentions detail (str_of_int (status_code resp))).

(** ** Concrete inputs for the examples *)

(** One implementation of the conversions: nothing is converted to a
    string, and an integer becomes the nearest double. *)
Definition float_of_int (z : Z) : option pyfloat :=
  match binary_normalize 53 1024 z 0 false with
  | S754_zero s => Some (FZero s)
  | S754_finite s m e => Some (FFinite s m e)
  | S754_infinity _ | S754_nan => None
  end.

Definition strict : Lax :=
  {| str_of_scalar := λ _, None;
     float_of_scalar := λ v, match v with JInt z => float_of_int z | _ => None end |}.

Definition demo_client : FMPClient.t :=
  FMPClient.init "demo" "https://financialmodelingprep.com/stable/".

Definition http_ok (j : json) : outcome :=
  Responded {| status_code := 200; text := EmptyString; json_body := Decoded j |}.

Definition http_500 : Response :=
  {| status_code := 500; text := "Internal error"; json_body := NotJSON |}.

(** A provider that knows no symbol. *)
Definition up_empty : upstream := λ _ _, http_ok (JArr []).

(** A provider that answers every call with 304 Not Modified, which has
    no body. *)
Definition http_304 : Response :=
  {| status_code := 304; text := EmptyString; json_body := NotJSON |}.

Definition up_not_modified : upstream := λ _ _, Responded http_304.

(** A provider that answers every call with a 500. *)
Definition up_500 : upstream := λ _ _, Responded http_500.

(** A provider that never answers in time. *)
Definition up_slow : upstream := λ _ _, TimedOut.

(** A provider with one company; the three statements carry different
    dates. The profile has both name fields, to tell the priorities
    apart. *)
Definition apple_profile : gmap string json :=
  {[ "symbol" := JStr "AAPL"; "companyName" := JStr "Apple Inc.";
     "name" := JStr "Apple"; "currency" := JStr "USD";
     "exchangeShortName" := JStr "NASDAQ"; "exchange" := JStr "NASDAQ Global Select" ]}.

Definition apple_income : gmap string json :=
  {[ "date" := JStr "2023-12-31"; "revenue" := JInt 383285000000;
     "netIncome" := JInt 96995000000; "revenueTTM" := JInt 1 ]}.

Definition apple_balance : gmap string json :=
  {[ "date" := JStr "2023-12-30"; "totalAssets" := JInt 352583000000;
     "totalLiabilities" := JInt 290437000000 ]}.

Definition apple_cashflow : gmap string json :=
  {[ "date" := JStr "2023-12-29"; "operatingCashFlow" := JInt 110543000000 ]}.

Definition up_apple : upstream := λ n _,
  match n with
  | 0%nat => http_ok (JArr [JObj apple_profile])
  | 1%nat => http_ok (JArr [JObj apple_income])
  | 2%nat => http_ok (JArr [JObj apple_balance])
  | _ => http_ok (JArr [JObj apple_cashflow])
  end.

Definition apple_snapshot : CompanySnapshot.t :=
  {| CompanySnapshot.symbol := "AAPL";
     CompanySnapshot.name := Some "Apple Inc.";
     CompanySnapshot.currency := Some "USD";
     CompanySnapshot.exchange := Some "NASDAQ";
     CompanySnapshot.asOf := Some "2023-12-31";
     CompanySnapshot.income :=
       {| IncomeSnapshot.revenue := float_of_int 383285000000;
          IncomeSnapshot.netIncome := float_of_int 96995000000 |};
     CompanySnapshot.balanceSheet :=
       {| BalanceSheetSnapshot.totalAssets := float_of_int 352583000000;
          BalanceSheetSnapshot.totalLiabilities := float_of_int 290437000000 |};
     CompanySnapshot.cashFlow :=
       {| CashFlowSnapshot.operatingCashFlow := float_of_int 110543000000 |} |}.

(** The same provider without an income statement. *)
Definition up_apple_no_income : upstream := λ n _,
  match n with
  | 1%nat => http_ok (JArr [])
  | _ => up_apple n (profile_request demo_client "AAPL")
  end.

(** The same provider, its income statement without a date. *)
Definition up_apple_undated : upstream := λ n _,
  match n with
  | 1%nat => http_ok (JArr [JObj (delete "date" apple_income)])
  | _ => up_apple n (profile_request demo_client "AAPL")
  end.

(** Inputs on which the three claims fail as stated. *)
Definition odd_profile : gmap string json :=
  {[ "companyName" := JStr "Apple Inc.";
     "currency" := JObj {[ "code" := JStr "USD" ]} ]}.

Definition up_odd_profile : upstream := λ n _,
  match n with
  | 0%nat => http_ok (JArr [JObj odd_profile])
  | _ => http_ok (JArr [])
  end.

Definition undated_row : gmap string json :=
  {[ "revenue" := JInt 383285000000; "netIncome" := JInt 96995000000 ]}.

Definition up_undated_row : upstream := λ _ _, http_ok (JArr [JObj undated_row]).

Definition nameless_record : gmap string json :=
  {[ "symbol" := JStr "AAPL"; "stockExchange" := JStr "NASDAQ";
     "currency" := JStr "USD" ]}.

Definition up_nameless_record : upstream := λ _ _, http_ok (JArr [JObj nameless_record]).

(** Inputs on which they hold. *)
Definition up_no_statements : upstream := λ n _,
  match n with
  | 0%nat => http_ok (JArr [JObj apple_profile])
  | _ => http_ok (JArr [])
  end.

Definition apple_rows : list (gmap string json) :=
  [ {[ "date" := JStr "2023-09-30"; "revenue" := JInt 383285000000;
       "netIncome" := JInt 96995000000; "revenueTTM" := JInt 1 ]};
    {[ "date" := JStr "2022-09-24"; "netIncome" := JInt 99803000000;
       "revenueTTM" := JInt 394328000000 ]};
    {[ "date" := JStr "2021-09-25"; "revenue" := JInt 365817000000;
       "netIncome" := JInt 94680000000 ]} ].

Definition up_apple_rows : upstream := λ _ _, http_ok (JArr (JObj <$> apple_rows)).

Definition apple_record : gmap string json :=
  {[ "symbol" := JStr "AAPL"; "companyName" := JStr "Apple Inc.";
     "stockExchange" := JStr "NASDAQ"; "currency" := JStr "USD" ]}.

Definition up_apple_record : upstream := λ _ _, http_ok (JArr [JObj apple_record]).

(** ** Vocabulary of the further properties *)

(** [params.get(k)] on a dictionary kept in insertion order. *)
Fixpoint params_get (k : string) (ps : list (string * json)) : option json :=
  match ps with
  | [] => None
  | (k', v) :: ps' => if String.eqb k k' then Some v else params_get k ps'
  end.

(** The requests the five methods of the client send when the period is
    ["annual"]. *)
Definition sent_by (self : FMPClient.t) (rq : Request) : Prop :=
  (∃ q limit, rq = search_request self q limit)
  ∨ (∃ symbol, rq = profile_request self symbol)
  ∨ (∃ symbol limit, rq = income_request self symbol limit)
  ∨ (∃ symbol limit,
       rq = request_of self "balance-sheet-statement" (statement_params symbol limit))
  ∨ (∃ symbol limit,
       rq = request_of self "cash-flow-statement" (statement_params symbol limit)).

Definition endpoint_names : list string :=
  ["search-symbol"; "profile"; "income-statement"; "balance-sheet-statement";
   "cash-flow-statement"].

(** The exceptions raised while the endpoints read and reshape the
    parsed body, without any call. *)
Definition local_error (e : exn) : Prop :=
  match e with
  | ValidationError _ | TypeError | AttributeError | KeyError | IndexError => True
  | _ => False
  end.

Definition locally_failing {A : Type} (r : result A) : Prop :=
  ∀ e, r = Err e → local_error e.

(** A computation of the service: it only appends calls, all of them
    requests of the client; a call whose outcome makes [_get] raise ends
    it with that exception; and when it ends with an exception, that is a
    local one, a 404, or the exception of one of its calls. *)
Definition disciplined (self : FMPClient.t) {A : Type} (m : M A) : Prop :=
  ∀ up log, ∃ new,
    (m up log).2 = log ++ new
    ∧ Forall (λ c : call, sent_by self c.1) new
    ∧ (∀ c e, c ∈ new → reply c.2 = Err e → (m up log).1 = Err e)
    ∧ (∀ e, (m up log).1 = Err e →
         local_error e ∨ (∃ detail, e = HTTPException 404 detail)
         ∨ ∃ c, c ∈ new ∧ reply c.2 = Err e).

(** The request is one the framework rejects before the endpoint runs. *)
Definition rejected (rq : inbound) : Prop :=
  match rq with
  | GET_health => False
  | GET_search q limit =>
      q = None ∨ q = Some EmptyString ∨ default 10 limit < 1 ∨ 50 < default 10 limit
  | GET_snapshot _ => False
  | GET_history _ years => default 5 years < 1 ∨ 20 < default 5 years
  end.

(** The four calls of a snapshot run, in the order they are made. *)
Definition snapshot_calls (self : FMPClient.t) (symbol : string) (up : upstream)
  : list call :=
  [ (profile_request self symbol, up 0%nat (profile_request self symbol));
    (income_request self symbol 1, up 1%nat (income_request self symbol 1));
    (balance_request self symbol, up 2%nat (balance_request self symbol));
    (cashflow_request self symbol, up 3%nat (cashflow_request self symbol)) ].

(** The response to an exception that leaves an endpoint, whatever the
    endpoint. *)
Definition error_response (e : exn) : HTTPResponse :=
  match e with
  | HTTPException code detail => {| status := code; body := Detail detail |}
  | _ => if is_RuntimeError e then runtime_error_handler e
         else {| status := 500; body := InternalServerError |}
  end.

(** An exception is the one of a call of the log, a 404 of the endpoint,
    or a local one. *)
Definition explained (log : list call) (e : exn) : Prop :=
  local_error e ∨ (∃ detail, e = HTTPException 404 detail)
  ∨ ∃ c, c ∈ log ∧ reply c.2 = Err e.

(** ** Concrete inputs for the further examples *)

(** A provider that answers with a page that is not JSON. *)
Definition up_not_json : upstream := λ _ _,
  Responded {| status_code := 200; text := "<html>maintenance</html>"; json_body := NotJSON |}.

(** A provider that answers with a body of brackets nested deeper than
    the decoder can follow. *)
Definition too_deep : Response :=
  {| status_code := 200; text := "[[[[[[[[[[[[[[[[[[[[[[[[[[[[[[[[[[[[[[[[[[[[[[[[[[[[[[[[";
     json_body := TooDeep "maximum recursion depth exceeded" |}.

Definition up_too_deep : upstream := λ _ _, Responded too_deep.

(** A provider that answers every call with an error object and a
    successful status. *)
Definition error_object : gmap string json :=
  {[ "Error Message" := JStr "Limit Reach" ]}.

Definition up_error_object : upstream := λ _ _, http_ok (JObj error_object).

(** A provider whose income statement reports a revenue of zero beside a
    trailing figure, and whose balance sheet reports assets of zero. *)
Definition zero_income : gmap string json :=
  {[ "date" := JStr "2023-12-31"; "revenue" := JInt 0;
     "revenueTTM" := JFloat (FFinite false 5 0); "netIncomeTTM" := JFloat (FFinite true 3 0) ]}.

Definition zero_balance : gmap string json :=
  {[ "totalAssets" := JFloat (FZero false); "totalAssetsTTM" := JFloat (FFinite false 7 0) ]}.

Definition up_zero : upstream := λ n _,
  match n with
  | 0%nat => http_ok (JArr [JObj apple_profile])
  | 1%nat => http_ok (JArr [JObj zero_income])
  | 2%nat => http_ok (JArr [JObj zero_balance])
  | _ => http_ok (JArr [])
  end.

Definition zero_snapshot : CompanySnapshot.t :=
  {| CompanySnapshot.symbol := "AAPL";
     CompanySnapshot.name := Some "Apple Inc.";
     CompanySnapshot.currency := Some "USD";
     CompanySnapshot.exchange := Some "NASDAQ";
     CompanySnapshot.asOf := Some "2023-12-31";
     CompanySnapshot.income :=
       {| IncomeSnapshot.revenue := Some (FFinite false 5 0);
          IncomeSnapshot.netIncome := Some (FFinite true 3 0) |};
     CompanySnapshot.balanceSheet :=
       {| BalanceSheetSnapshot.totalAssets := Some (FZero false);
          BalanceSheetSnapshot.totalLiabilities := None |};
     CompanySnapshot.cashFlow := {| CashFlowSnapshot.operatingCashFlow := None |} |}.

(** An item of the search response made from an element of the upstream
    body, and a point of the history response made from a row. *)
Definition item_accepted {L : Lax} (item : json) (it : CompanySearchItem.t) : Prop :=
  ∃ m, item = JObj m
       ∧ validate_str (dict_get m "symbol") = Some (CompanySearchItem.symbol it)
       ∧ validate_str (py_or (dict_get m "name") (dict_get m "companyName"))
         = Some (CompanySearchItem.name it)
       ∧ validate_optional validate_str (dict_get m "stockExchange")
         = Some (CompanySearchItem.exchange it)
       ∧ validate_optional validate_str (dict_get m "currency")
         = Some (CompanySearchItem.currency it).

Definition row_accepted {L : Lax} (row : json) (pt : HistoryPoint.t) : Prop :=
  ∃ m, row = JObj m
       ∧ validate_str (dict_get m "date") = Some (HistoryPoint.date pt)
       ∧ validate_optional validate_float (dict_get m "revenue")
         = Some (HistoryPoint.revenue pt)
       ∧ validate_optional validate_float (dict_get m "netIncome")
         = Some (HistoryPoint.netIncome pt).

(** ** The configuration ([app/fmp_client.py], lines 9 to 15) *)

(** The two module-level names, read from the environment (as
    [load_dotenv] leaves it) when the module is loaded: [os.getenv] of a
    variable that is not set is [None], or the default when one is given.
    Loading raises when the key is [None] or empty. *)
Record settings : Type := {
  FMP_API_KEY : string;
  FMP_BASE_URL : string
}.

Definition key_missing : exn :=
  RuntimeError
    "FMP_API_KEY is not set. Please configure it in your environment or .env file.".

Definition load (environ : gmap string string) : result settings :=
  let key := environ !! "FMP_API_KEY" in
  let base :=
    default "https://financialmodelingprep.com/stable" (environ !! "FMP_BASE_URL") in
  match key with
  | Some k =>
      if String.eqb k EmptyString then Err key_missing
      else Ok {| FMP_API_KEY := k; FMP_BASE_URL := base |}
  | None => Err key_missing
  end.

(** [get_client] of [app/main.py]: [FMPClient()] with the defaults of
    [__init__], the two module-level names. *)
Definition get_client (cfg : settings) : FMPClient.t :=
  FMPClient.init (FMP_API_KEY cfg) (FMP_BASE_URL cfg).

Definition configured_demo_client : FMPClient.t :=
  FMPClient.init "demo" "https://example.test/api//".

Definition demo_environ : gmap string string :=
  {[ "FMP_API_KEY" := "demo"; "FMP_BASE_URL" := "https://example.test/api//" ]}.
(** ** The client *)

Lemma get_run (self : FMPClient.t) endpoint ps (up : upstream) (log : list call) :
  let rq := request_of self endpoint ps in
  FMPClient._get self endpoint ps up log
  = (reply (up (length log) rq), log ++ [(rq, up (length log) rq)]).
Proof.
  unfold FMPClient._get, request_of, reply, mbind, M_bind, requests_get; simpl.
  destruct (up _ _) as [resp| |]; simpl; try reflexivity.
  destruct (ok resp); reflexivity.
Qed.

Lemma get_returns (self : FMPClient.t) endpoint ps up log j :
  returns up (length log) (request_of self endpoint ps) j →
  FMPClient._get self endpoint ps up log
  = (Ok j, log ++ [(request_of self endpoint ps, up (length log) (request_of self endpoint ps))]).
Proof.
  intros (resp & Hup & Hok & Hj). rewrite get_run; simpl.
  rewrite Hup; simpl. rewrite Hok. unfold resp_json. rewrite Hj. reflexivity.
Qed.

(** ** Computations fail fast *)

Lemma fail_fast_ret {A : Type} (a : A) : fail_fast (mret a).
Proof.
  intros up log. exists []. simpl. rewrite app_nil_r.
  split; [reflexivity|]. split; [constructor|].
  intros c e Hc. inversion Hc.
Qed.

Lemma fail_fast_raise {A : Type} (e : exn) : fail_fast (raise (A:=A) e).
Proof.
  intros up log. exists []. simpl. rewrite app_nil_r.
  split; [reflexivity|]. split; [constructor|].
  intros c e' Hc. inversion Hc.
Qed.

Lemma fail_fast_lift {A : Type} (r : result A) : fail_fast (lift r).
Proof.
  intros up log. exists []. simpl. rewrite app_nil_r.
  split; [reflexivity|]. split; [constructor|].
  intros c e' Hc. inversion Hc.
Qed.

Lemma fail_fast_bind {A B : Type} (m : M A) (k : A → M B) :
  fail_fast m → (∀ a, fail_fast (k a)) → fail_fast (m ≫= k).
Proof.
  intros Hm Hk up log.
  destruct (Hm up log) as (new1 & Hlog1 & Hto1 & Hfat1).
  unfold mbind, M_bind.
  destruct (m up log) as [[a|e] log1] eqn:Em; simpl in *; subst log1.
  - destruct (Hk a up (log ++ new1)) as (new2 & Hlog2 & Hto2 & Hfat2).
    exists (new1 ++ new2). rewrite Hlog2, app_assoc.
    split; [reflexivity|]. split; [apply Forall_app; auto|].
    intros c e Hc Hf. apply elem_of_app in Hc as [Hc|Hc].
    + specialize (Hfat1 c e Hc Hf). discriminate.
    + eauto.
  - exists new1. split; [reflexivity|]. split; [exact Hto1|].
    intros c e0 Hc Hf. specialize (Hfat1 c e0 Hc Hf). congruence.
Qed.

Lemma fail_fast_if {A : Type} (b : bool) (m1 m2 : M A) :
  fail_fast m1 → fail_fast m2 → fail_fast (if b then m1 else m2).
Proof. destruct b; auto. Qed.

Lemma fail_fast_get (self : FMPClient.t) endpoint ps :
  fail_fast (FMPClient._get self endpoint ps).
Proof.
  intros up log. rewrite get_run. simpl.
  eexists. split; [reflexivity|].
  split; [repeat constructor|].
  intros c e Hc Hf. apply list_elem_of_singleton in Hc. subst c. simpl in *.
  unfold fatal in Hf. unfold reply.
  destruct (up _ _) as [resp| |]; try (injection Hf as <-; reflexivity).
  destruct (ok resp); [discriminate|]. injection Hf as <-. reflexivity.
Qed.

Create HintDb fail_fast.

#[local] Hint Resolve fail_fast_ret fail_fast_raise fail_fast_lift
  fail_fast_if fail_fast_get : fail_fast.

Lemma fail_fast_search_companies {L : Lax} client q limit :
  fail_fast (search_companies client q limit).
Proof.
  unfold search_companies, FMPClient.search_symbol.
  apply fail_fast_bind; intros; auto with fail_fast.
Qed.

Lemma fail_fast_company_snapshot {L : Lax} client symbol :
  fail_fast (company_snapshot client symbol).
Proof.
  unfold company_snapshot, FMPClient.get_company_profile,
    FMPClient.get_income_statement, FMPClient.get_balance_sheet,
    FMPClient.get_cash_flow.
  apply fail_fast_bind; [auto with fail_fast|]. intros profiles.
  apply fail_fast_if; [auto with fail_fast|].
  repeat (apply fail_fast_bind; [auto with fail_fast|]; intros ?).
  auto with fail_fast.
Qed.

Lemma fail_fast_company_history {L : Lax} client symbol years :
  fail_fast (company_history client symbol years).
Proof.
  unfold company_history, FMPClient.get_income_statement.
  apply fail_fast_bind; [auto with fail_fast|]. intros income_list.
  auto with fail_fast.
Qed.

(** What the application returns for a computation that fails fast. *)
Lemma serve_fail_fast {L : Lax} {A : Type} (render : A → content) (m : M A) up :
  fail_fast m →
  Forall (λ c : call, timeout c.1 = 10) (serve render m up).2
  ∧ ∀ c e, c ∈ (serve render m up).2 → fatal c.2 = Some e →
      (serve render m up).1 = respond render (Err e).
Proof.
  intros Hm. destruct (Hm up []) as (new & Hlog & Hto & Hfat).
  unfold serve. destruct (m up []) as [r log] eqn:Em. simpl in *. subst log.
  split; [assumption|]. intros c e Hc Hf. rewrite (Hfat c e Hc Hf). reflexivity.
Qed.

Lemma app_fail_fast {L : Lax} client rq up :
  Forall (λ c : call, timeout c.1 = 10) (app client rq up).2
  ∧ ∀ c e, c ∈ (app client rq up).2 → fatal c.2 = Some e →
      (app client rq up).1
      = match e with
        | HTTPException code detail => {| status := code; body := Detail detail |}
        | _ => if is_RuntimeError e then runtime_error_handler e
               else {| status := 500; body := InternalServerError |}
        end.
Proof.
  assert (Hnil : Forall (λ c : call, timeout c.1 = 10) []
     ∧ ∀ (c : call) (e : exn) (resp : HTTPResponse), c ∈ [] → fatal c.2 = Some e →
         resp = match e with
        | HTTPException code detail => {| status := code; body := Detail detail |}
        | _ => if is_RuntimeError e then runtime_error_handler e
               else {| status := 500; body := InternalServerError |}
        end).
  { split; [constructor|]. intros c e resp Hc. inversion Hc. }
  destruct Hnil as [Hnil1 Hnil2].
  destruct rq as [|q limit|symbol|symbol years]; simpl.
  - split; [assumption|]. intros; eapply Hnil2; eauto.
  - destruct q as [q|]; [|split; [assumption|intros; eapply Hnil2; eauto]].
    destruct (_ && _); [|split; [assumption|intros; eapply Hnil2; eauto]].
    destruct (serve_fail_fast SearchResults _ up
                (fail_fast_search_companies client q (default 10 limit))) as [H1 H2].
    split; [assumption|]. intros c e Hc Hf. rewrite (H2 c e Hc Hf).
    destruct e; reflexivity.
  - destruct (serve_fail_fast Snapshot _ up
                (fail_fast_company_snapshot client symbol)) as [H1 H2].
    split; [assumption|]. intros c e Hc Hf. rewrite (H2 c e Hc Hf).
    destruct e; reflexivity.
  - destruct (_ && _); [|split; [assumption|intros; eapply Hnil2; eauto]].
    destruct (serve_fail_fast History _ up
                (fail_fast_company_history client symbol (default 5 years))) as [H1 H2].
    split; [assumption|]. intros c e Hc Hf. rewrite (H2 c e Hc Hf).
    destruct e; reflexivity.
Qed.

(** ** Strings *)

Lemma append_cancel (s a b : string) : s +:+ a = s +:+ b → a = b.
Proof.
  induction s as [|c s IH]; simpl; intros Heq; [assumption|].
  injection Heq as Heq. auto.
Qed.

Lemma str_prefix_length (n : nat) (s : string) :
  (String.length (str_prefix n s) ≤ n)%nat.
Proof.
  unfold str_prefix. revert s.
  induction n as [|n IH]; intros [|c s]; simpl; try lia.
  specialize (IH s). lia.
Qed.

Lemma str_prefix_prefix (n : nat) (s : string) :
  String.prefix (str_prefix n s) s = true.
Proof.
  unfold str_prefix. revert s.
  induction n as [|n IH]; intros [|c s]; simpl; try reflexivity.
  destruct (ascii_dec c c) as [_|Hne]; [apply IH|congruence].
Qed.

(** ** Runs of the snapshot endpoint *)

Lemma reply_Ok (o : outcome) (j : json) :
  reply o = Ok j ↔ ∃ resp, o = Responded resp ∧ ok resp = true ∧ json_body resp = Decoded j.
Proof.
  split.
  - destruct o as [resp| |]; simpl; try discriminate.
    destruct (ok resp) eqn:Hok; [|discriminate].
    unfold resp_json. destruct (json_body resp) eqn:Hj; [|discriminate..].
    intros [= <-]. eauto.
  - intros (resp & -> & Hok & Hj). simpl. rewrite Hok. unfold resp_json.
    rewrite Hj. reflexivity.
Qed.

Lemma company_snapshot_run {L : Lax} client symbol up :
  company_snapshot client symbol up [] = snapshot_run client symbol up.
Proof.
  unfold company_snapshot, snapshot_run, profile_fields,
    FMPClient.get_company_profile, FMPClient.get_income_statement,
    FMPClient.get_balance_sheet, FMPClient.get_cash_flow.
  unfold mbind at 1, M_bind at 1. rewrite get_run. simpl.
  fold (profile_request client symbol).
  destruct (reply (up 0%nat (profile_request client symbol))) as [profiles|e];
    [|reflexivity].
  destruct (truthy profiles); simpl; [|reflexivity].
  unfold mbind at 1, M_bind at 1. unfold lift at 1.
  destruct (py_getitem0 profiles) as [profile|e]; simpl; [|reflexivity].
  unfold mbind at 1, M_bind at 1. unfold lift at 1.
  destruct (py_get_or profile "companyName" "name") as [name|e]; simpl; [|reflexivity].
  unfold mbind at 1, M_bind at 1. unfold lift at 1.
  destruct (py_get profile "currency") as [currency|e]; simpl; [|reflexivity].
  unfold mbind at 1, M_bind at 1. unfold lift at 1.
  destruct (py_get_or profile "exchangeShortName" "exchange") as [exchange|e];
    simpl; [|reflexivity].
  unfold mbind at 1, M_bind at 1. rewrite get_run. simpl.
  fold (statement_params symbol 1). fold (income_request client symbol 1).
  destruct (reply (up 1%nat (income_request client symbol 1))) as [il|e];
    [|reflexivity].
  unfold mbind at 1, M_bind at 1. rewrite get_run. simpl.
  fold (statement_params symbol 1). fold (balance_request client symbol).
  destruct (reply (up 2%nat (balance_request client symbol))) as [bl|e];
    [|reflexivity].
  unfold mbind at 1, M_bind at 1. rewrite get_run. simpl.
  fold (statement_params symbol 1). fold (cashflow_request client symbol).
  destruct (reply (up 3%nat (cashflow_request client symbol))) as [cl|e];
    reflexivity.
Qed.

Lemma profile_is_no_statement_call (client : FMPClient.t) symbol (o : outcome) :
  ¬ statement_call client (profile_request client symbol, o).
Proof.
  intros (symbol' & limit & Hrq). simpl in Hrq.
  assert (Hurl : ∀ endpoint ps,
             profile_request client symbol = request_of client endpoint ps →
             "profile" = lstrip_slash endpoint).
  { intros endpoint ps Heq. apply (f_equal url) in Heq. simpl in Heq.
    apply append_cancel in Heq. injection Heq as Heq. exact Heq. }
  destruct Hrq as [Hrq|[Hrq|Hrq]]; apply Hurl in Hrq; discriminate.
Qed.

Lemma respond_200 {A : Type} (render : A → content) (r : result A) (b : content) :
  (∀ d, b ≠ Detail d) →
  respond render r = {| status := 200; body := b |} → ∃ a, r = Ok a ∧ b = render a.
Proof.
  intros Hb. destruct r as [a|e]; simpl.
  - intros [= <-]. eauto.
  - destruct e; simpl; intros [= ? ?]; subst; try discriminate.
    exfalso. eapply Hb. reflexivity.
Qed.

Lemma snapshot_success {L : Lax} client symbol up snap :
  (app client (GET_snapshot symbol) up).1 = {| status := 200; body := Snapshot snap |} →
  ∃ profiles name currency exchange il bl cl,
    answers up client symbol profiles il bl cl
    ∧ truthy profiles = true
    ∧ profile_fields profiles = Ok (name, currency, exchange)
    ∧ build_snapshot symbol name currency exchange il bl cl = Ok snap.
Proof.
  simpl. unfold serve. rewrite company_snapshot_run. unfold snapshot_run. simpl.
  destruct (reply (up 0%nat _)) as [profiles|e] eqn:E0; simpl;
    [|destruct e; simpl; discriminate].
  destruct (truthy profiles) eqn:Ht; simpl; [|discriminate].
  destruct (profile_fields profiles) as [[[name currency] exchange]|e] eqn:Ep; simpl;
    [|destruct e; simpl; discriminate].
  destruct (reply (up 1%nat _)) as [il|e] eqn:E1; simpl;
    [|destruct e; simpl; discriminate].
  destruct (reply (up 2%nat _)) as [bl|e] eqn:E2; simpl;
    [|destruct e; simpl; discriminate].
  destruct (reply (up 3%nat _)) as [cl|e] eqn:E3; simpl;
    [|destruct e; simpl; discriminate].
  intros Hresp. apply respond_200 in Hresp as (snap' & Hb & [= <-]); [|discriminate].
  exists profiles, name, currency, exchange, il, bl, cl.
  unfold answers, returns. rewrite <- !reply_Ok. auto 10.
Qed.


(** On dictionaries the tail of [company_snapshot] is a chain of the
    four constructors. *)
Lemma build_snapshot_dicts {L : Lax} symbol name currency exchange il bl cl mi mb mc :
  first_or_empty il = Ok (JObj mi) →
  first_or_empty bl = Ok (JObj mb) →
  first_or_empty cl = Ok (JObj mc) →
  build_snapshot symbol name currency exchange il bl cl
  = (income ← IncomeSnapshot.new
                (py_or (dict_get mi "revenue") (dict_get mi "revenueTTM"))
                (py_or (dict_get mi "netIncome") (dict_get mi "netIncomeTTM"));
     balance ← BalanceSheetSnapshot.new
                 (dict_get mb "totalAssets") (dict_get mb "totalLiabilities");
     cashflow ← CashFlowSnapshot.new
                  (py_or (dict_get mc "operatingCashFlow")
                         (dict_get mc "operatingCashFlowTTM"));
     CompanySnapshot.new (upper symbol) name currency exchange
       (asOf_priority (dict_get mi "date") (dict_get mb "date") (dict_get mc "date"))
       income balance cashflow).
Proof.
  intros Ei Eb Ec. unfold build_snapshot. rewrite Ei, Eb, Ec. simpl.
  unfold py_get_or, py_or, asOf_priority. simpl.
  destruct (truthy (dict_get mi "date")), (truthy (dict_get mb "date")),
    (truthy (dict_get mi "revenue")), (truthy (dict_get mi "netIncome")),
    (truthy (dict_get mc "operatingCashFlow")); reflexivity.
Qed.

Ltac bust H :=
  repeat match type of H with
         | context [match ?x with _ => _ end] =>
             destruct x eqn:?; simpl in H; try discriminate H
         | context [if ?x then _ else _] =>
             destruct x eqn:?; simpl in H; try discriminate H
         end.

Lemma build_snapshot_needs_dicts {L : Lax} symbol name currency exchange il bl cl snap :
  build_snapshot symbol name currency exchange il bl cl = Ok snap →
  ∃ mi mb mc,
    first_or_empty il = Ok (JObj mi)
    ∧ first_or_empty bl = Ok (JObj mb)
    ∧ first_or_empty cl = Ok (JObj mc).
Proof.
  unfold build_snapshot. intros Hb.
  destruct (first_or_empty il) as [ri|e] eqn:Ei; simpl in Hb; [|discriminate].
  destruct (first_or_empty bl) as [rb|e] eqn:Eb; simpl in Hb; [|discriminate].
  destruct (first_or_empty cl) as [rc|e] eqn:Ec; simpl in Hb; [|discriminate].
  destruct ri as [| | | | | |mi]; try discriminate Hb.
  destruct rb as [| | | | | |mb], rc as [| | | | | |mc];
    first [ by (do 3 eexists; repeat split; reflexivity)
          | exfalso; unfold mbind, result_bind, py_get_or, mbind, result_bind in Hb;
            simpl in Hb; by bust Hb ].
Qed.

Lemma build_snapshot_Ok {L : Lax} symbol name currency exchange il bl cl mi mb mc snap :
  first_or_empty il = Ok (JObj mi) →
  first_or_empty bl = Ok (JObj mb) →
  first_or_empty cl = Ok (JObj mc) →
  build_snapshot symbol name currency exchange il bl cl = Ok snap →
  CompanySnapshot.symbol snap = upper symbol
  ∧ validate_optional validate_str name = Some (CompanySnapshot.name snap)
  ∧ validate_optional validate_str currency = Some (CompanySnapshot.currency snap)
  ∧ validate_optional validate_str exchange = Some (CompanySnapshot.exchange snap)
  ∧ validate_optional validate_str
      (asOf_priority (dict_get mi "date") (dict_get mb "date") (dict_get mc "date"))
    = Some (CompanySnapshot.asOf snap)
  ∧ IncomeSnapshot.new
      (py_or (dict_get mi "revenue") (dict_get mi "revenueTTM"))
      (py_or (dict_get mi "netIncome") (dict_get mi "netIncomeTTM"))
    = Ok (CompanySnapshot.income snap)
  ∧ BalanceSheetSnapshot.new (dict_get mb "totalAssets") (dict_get mb "totalLiabilities")
    = Ok (CompanySnapshot.balanceSheet snap)
  ∧ CashFlowSnapshot.new
      (py_or (dict_get mc "operatingCashFlow") (dict_get mc "operatingCashFlowTTM"))
    = Ok (CompanySnapshot.cashFlow snap).
Proof.
  intros Ei Eb Ec Hb. rewrite (build_snapshot_dicts _ _ _ _ _ _ _ _ _ _ Ei Eb Ec) in Hb.
  destruct (IncomeSnapshot.new _ _) as [income|e]; simpl in Hb; [|discriminate].
  destruct (BalanceSheetSnapshot.new _ _) as [balance|e]; simpl in Hb; [|discriminate].
  destruct (CashFlowSnapshot.new _) as [cashflow|e]; simpl in Hb; [|discriminate].
  unfold CompanySnapshot.new in Hb.
  destruct (validate_optional validate_str name) as [n|]; [|discriminate].
  destruct (validate_optional validate_str currency) as [c|]; [|discriminate].
  destruct (validate_optional validate_str exchange) as [x|]; [|discriminate].
  destruct (validate_optional validate_str (asOf_priority _ _ _)) as [d|]; [|discriminate].
  injection Hb as <-. simpl. repeat split; reflexivity.
Qed.

Lemma returns_inj (up : upstream) n rq j j' :
  returns up n rq j → returns up n rq j' → j = j'.
Proof.
  intros (resp & Hup & _ & Hj) (resp' & Hup' & _ & Hj'). congruence.
Qed.


Lemma validate_optional_str {L : Lax} (s : string) :
  validate_optional validate_str (JStr s) = Some (Some s).
Proof. reflexivity. Qed.

Lemma profile_fields_Ok (profiles name currency exchange : json) :
  profile_fields profiles = Ok (name, currency, exchange) →
  ∃ p, py_getitem0 profiles = Ok (JObj p)
       ∧ name = py_or (dict_get p "companyName") (dict_get p "name")
       ∧ currency = dict_get p "currency"
       ∧ exchange = py_or (dict_get p "exchangeShortName") (dict_get p "exchange").
Proof.
  unfold profile_fields. destruct (py_getitem0 profiles) as [profile|e]; simpl;
    [|discriminate].
  destruct profile as [| | | | | |p]; try discriminate.
  unfold py_get_or, py_or. simpl.
  destruct (truthy (dict_get p "companyName")) eqn:E1,
    (truthy (dict_get p "exchangeShortName")) eqn:E2;
    simpl; intros [= <- <- <-]; exists p; rewrite E1, E2; repeat split; reflexivity.
Qed.

(** Everything a 200 from the snapshot endpoint tells about the run. *)
Lemma snapshot_200 {L : Lax} client symbol up snap :
  (app client (GET_snapshot symbol) up).1 = {| status := 200; body := Snapshot snap |} →
  ∃ profiles p il bl cl mi mb mc,
    answers up client symbol profiles il bl cl
    ∧ truthy profiles = true
    ∧ py_getitem0 profiles = Ok (JObj p)
    ∧ first_or_empty il = Ok (JObj mi)
    ∧ first_or_empty bl = Ok (JObj mb)
    ∧ first_or_empty cl = Ok (JObj mc)
    ∧ build_snapshot symbol
        (py_or (dict_get p "companyName") (dict_get p "name"))
        (dict_get p "currency")
        (py_or (dict_get p "exchangeShortName") (dict_get p "exchange"))
        il bl cl = Ok snap.
Proof.
  intros Hresp.
  apply snapshot_success in Hresp
    as (profiles & name & currency & exchange & il & bl & cl & Hans & Ht & Hp & Hb).
  apply profile_fields_Ok in Hp as (p & Hp & -> & -> & ->).
  destruct (build_snapshot_needs_dicts _ _ _ _ _ _ _ _ Hb) as (mi & mb & mc & Ei & Eb & Ec).
  exists profiles, p, il, bl, cl, mi, mb, mc. auto 10.
Qed.

Lemma search_item_dict {L : Lax} (m : gmap string json) :
  search_item (JObj m)
  = CompanySearchItem.new (dict_get m "symbol")
      (py_or (dict_get m "name") (dict_get m "companyName"))
      (dict_get m "stockExchange") (dict_get m "currency").
Proof.
  unfold search_item, py_get_or, py_or. simpl.
  destruct (truthy (dict_get m "name")); reflexivity.
Qed.

(** ** C1: an unknown symbol *)

(** C1. When the profile call returns an empty list the snapshot endpoint
    answers 404, and the profile call is the only call it has made: none
    of the three statement endpoints is asked. *)
Theorem snapshot_unknown_symbol {L : Lax} (client : FMPClient.t) symbol (up : upstream) :
  returns up 0 (profile_request client symbol) (JArr []) →
  app client (GET_snapshot symbol) up
  = ({| status := 404; body := Detail "Company profile not found" |},
     [(profile_request client symbol, up 0%nat (profile_request client symbol))])
  ∧ Forall (λ c, ¬ statement_call client c) (app client (GET_snapshot symbol) up).2.
Proof.
  intros Hret. apply reply_Ok in Hret.
  assert (Happ : app client (GET_snapshot symbol) up
    = ({| status := 404; body := Detail "Company profile not found" |},
       [(profile_request client symbol, up 0%nat (profile_request client symbol))])).
  { simpl. unfold serve. rewrite company_snapshot_run. unfold snapshot_run.
    simpl. rewrite Hret. reflexivity. }
  split; [exact Happ|].
  rewrite Happ. simpl. constructor; [|constructor].
  apply profile_is_no_statement_call.
Qed.

Lemma snapshot_unknown_symbol_witness :
  app (L:=strict) demo_client (GET_snapshot "zzzz") up_empty
  = ({| status := 404; body := Detail "Company profile not found" |},
     [(profile_request demo_client "zzzz", http_ok (JArr []))])
  ∧ Forall (λ c, ¬ statement_call demo_client c)
      (app (L:=strict) demo_client (GET_snapshot "zzzz") up_empty).2.
Proof.
  apply (snapshot_unknown_symbol (L:=strict) demo_client "zzzz" up_empty).
  eexists. repeat split; reflexivity.
Defined.

(** ** C2: statements without rows *)

Lemma dict_get_empty (k : string) : dict_get ∅ k = JNull.
Proof. unfold dict_get. rewrite lookup_empty. reflexivity. Qed.

Lemma str_or_absent_null : str_or_absent JNull.
Proof. left. reflexivity. Qed.

Lemma str_or_absent_py_or (a b : json) :
  str_or_absent a → str_or_absent b → str_or_absent (py_or a b).
Proof. intros Ha Hb. unfold py_or. destruct (truthy a); assumption. Qed.

Lemma str_or_absent_valid {L : Lax} (v : json) :
  str_or_absent v → is_Some (validate_optional validate_str v).
Proof. intros [->|[s ->]]; eexists; reflexivity. Qed.

Lemma accepts_float_null {L : Lax} : accepts_float JNull.
Proof. eexists. reflexivity. Qed.

Lemma accepts_float_py_or {L : Lax} (a b : json) :
  accepts_float a → accepts_float b → accepts_float (py_or a b).
Proof. intros Ha Hb. unfold py_or. destruct (truthy a); assumption. Qed.

Lemma first_or_empty_head (fits : gmap string json → Prop) (l : list json) :
  head_ok fits l → first_or_empty (JArr l) = Ok (JObj (record_of l)).
Proof.
  destruct l as [|r l]; [reflexivity|]. destruct r; simpl; try contradiction.
  reflexivity.
Qed.

Lemma head_ok_record (fits : gmap string json → Prop) (l : list json) :
  fits ∅ → head_ok fits l → fits (record_of l).
Proof.
  intros Hempty. destruct l as [|r l]; [auto|]. destruct r; simpl; try contradiction.
  auto.
Qed.

Lemma income_ok_empty {L : Lax} : income_ok ∅.
Proof.
  unfold income_ok. rewrite !dict_get_empty.
  auto using str_or_absent_null, accepts_float_null.
Qed.

Lemma balance_ok_empty {L : Lax} : balance_ok ∅.
Proof.
  unfold balance_ok. rewrite !dict_get_empty.
  auto using str_or_absent_null, accepts_float_null.
Qed.

Lemma cashflow_ok_empty {L : Lax} : cashflow_ok ∅.
Proof.
  unfold cashflow_ok. rewrite !dict_get_empty.
  auto using str_or_absent_null, accepts_float_null.
Qed.

Lemma build_snapshot_total {L : Lax} symbol name currency exchange il bl cl mi mb mc :
  first_or_empty il = Ok (JObj mi) →
  first_or_empty bl = Ok (JObj mb) →
  first_or_empty cl = Ok (JObj mc) →
  str_or_absent name → str_or_absent currency → str_or_absent exchange →
  income_ok mi → balance_ok mb → cashflow_ok mc →
  ∃ snap, build_snapshot symbol name currency exchange il bl cl = Ok snap.
Proof.
  intros Ei Eb Ec Hname Hcur Hexch (Hdi & Hr & Hrt & Hn & Hnt) (Hdb & Ha & Hl)
    (Hdc & Ho & Hot).
  rewrite (build_snapshot_dicts _ _ _ _ _ _ _ _ _ _ Ei Eb Ec).
  destruct (accepts_float_py_or _ _ Hr Hrt) as [r Er].
  destruct (accepts_float_py_or _ _ Hn Hnt) as [n En].
  destruct Ha as [a Ea], Hl as [l El].
  destruct (accepts_float_py_or _ _ Ho Hot) as [o Eo].
  destruct (str_or_absent_valid _ Hname) as [vn Evn].
  destruct (str_or_absent_valid _ Hcur) as [vc Evc].
  destruct (str_or_absent_valid _ Hexch) as [vx Evx].
  assert (Hd : str_or_absent
                 (asOf_priority (dict_get mi "date") (dict_get mb "date")
                    (dict_get mc "date"))).
  { unfold asOf_priority.
    destruct (truthy (dict_get mi "date")); [assumption|].
    destruct (truthy (dict_get mb "date")); assumption. }
  destruct (str_or_absent_valid _ Hd) as [vd Evd].
  unfold IncomeSnapshot.new, BalanceSheetSnapshot.new, CashFlowSnapshot.new,
    CompanySnapshot.new.
  rewrite Er, En, Ea, El, Eo. simpl. rewrite Evn, Evc, Evx, Evd. eauto.
Qed.

(** C2, as amended. Let the profile call return a non-empty list whose
    first record has strings or nothing as its name, currency and
    exchange fields, and let each statement call return a list that is
    empty or starts with a record the statement's model accepts. Then
    the snapshot endpoint answers 200: an empty list is read as an empty
    record, and the fields of the statements whose list is empty are all
    absent. *)
Theorem snapshot_partial_data {L : Lax} (client : FMPClient.t) symbol (up : upstream)
    (p : gmap string json) (ps li lb lc : list json) :
  answers up client symbol (JArr (JObj p :: ps)) (JArr li) (JArr lb) (JArr lc) →
  profile_ok p →
  head_ok income_ok li → head_ok balance_ok lb → head_ok cashflow_ok lc →
  ∃ snap,
    (app client (GET_snapshot symbol) up).1 = {| status := 200; body := Snapshot snap |}
    ∧ (li = [] → first_or_empty (JArr li) = Ok (JObj ∅)
                 ∧ CompanySnapshot.income snap = IncomeSnapshot.mk None None)
    ∧ (lb = [] → first_or_empty (JArr lb) = Ok (JObj ∅)
                 ∧ CompanySnapshot.balanceSheet snap = BalanceSheetSnapshot.mk None None)
    ∧ (lc = [] → first_or_empty (JArr lc) = Ok (JObj ∅)
                 ∧ CompanySnapshot.cashFlow snap = CashFlowSnapshot.mk None).
Proof.
  intros (H0 & H1 & H2 & H3) (Hcn & Hn & Hcur & Hxs & Hx) Hi Hb Hc.
  apply reply_Ok in H0, H1, H2, H3.
  pose proof (first_or_empty_head _ _ Hi) as Ei.
  pose proof (first_or_empty_head _ _ Hb) as Eb.
  pose proof (first_or_empty_head _ _ Hc) as Ec.
  assert (Hsnap : ∃ snap, build_snapshot symbol
              (py_or (dict_get p "companyName") (dict_get p "name"))
              (dict_get p "currency")
              (py_or (dict_get p "exchangeShortName") (dict_get p "exchange"))
              (JArr li) (JArr lb) (JArr lc) = Ok snap).
  { apply (build_snapshot_total _ _ _ _ _ _ _ _ _ _ Ei Eb Ec);
      auto using str_or_absent_py_or.
    - apply (head_ok_record income_ok); [apply income_ok_empty|assumption].
    - apply (head_ok_record balance_ok); [apply balance_ok_empty|assumption].
    - apply (head_ok_record cashflow_ok); [apply cashflow_ok_empty|assumption]. }
  destruct Hsnap as [snap Hsnap].
  exists snap. split.
  - unfold app, serve. rewrite company_snapshot_run. unfold snapshot_run.
    cbn [snd]. rewrite H0, H1, H2, H3.
    assert (Hp : profile_fields (JArr (JObj p :: ps))
                 = Ok (py_or (dict_get p "companyName") (dict_get p "name"),
                       dict_get p "currency",
                       py_or (dict_get p "exchangeShortName") (dict_get p "exchange"))).
    { unfold profile_fields, py_get_or, py_or. simpl.
      destruct (truthy (dict_get p "companyName")),
        (truthy (dict_get p "exchangeShortName")); reflexivity. }
    rewrite Hp. cbn [truthy negb]. rewrite Hsnap. reflexivity.
  - destruct (build_snapshot_Ok _ _ _ _ _ _ _ _ _ _ _ Ei Eb Ec Hsnap)
      as (_ & _ & _ & _ & _ & Hinc & Hbal & Hcf).
    cbv beta in Hinc, Hbal, Hcf.
    split; [|split]; intros ->; (split; [reflexivity|]);
      cbn [record_of] in *; rewrite ?dict_get_empty in *.
    + injection Hinc as <-. reflexivity.
    + injection Hbal as <-. reflexivity.
    + injection Hcf as <-. reflexivity.
Qed.

Lemma snapshot_partial_data_witness :
  ∃ snap,
    (app (L:=strict) demo_client (GET_snapshot "aapl") up_no_statements).1
    = {| status := 200; body := Snapshot snap |}
    ∧ CompanySnapshot.income snap = IncomeSnapshot.mk None None
    ∧ CompanySnapshot.balanceSheet snap = BalanceSheetSnapshot.mk None None
    ∧ CompanySnapshot.cashFlow snap = CashFlowSnapshot.mk None.
Proof.
  destruct (snapshot_partial_data (L:=strict) demo_client "aapl" up_no_statements
              apple_profile [] [] [] [])
    as (snap & Hresp & Hi & Hb & Hc).
  - repeat split; eexists; repeat split; reflexivity.
  - repeat split; right; eexists; reflexivity.
  - exact I.
  - exact I.
  - exact I.
  - exists snap. split; [exact Hresp|].
    split; [apply Hi; reflexivity|]. split; [apply Hb|apply Hc]; reflexivity.
Defined.

(** Partial data: with no income statement the two other statements are
    still reported, and the date is the balance sheet's. *)
Example snapshot_without_income :
  (app (L:=strict) demo_client (GET_snapshot "aapl") up_apple_no_income).1
  = {| status := 200;
       body := Snapshot
         {| CompanySnapshot.symbol := "AAPL";
            CompanySnapshot.name := Some "Apple Inc.";
            CompanySnapshot.currency := Some "USD";
            CompanySnapshot.exchange := Some "NASDAQ";
            CompanySnapshot.asOf := Some "2023-12-30";
            CompanySnapshot.income := IncomeSnapshot.mk None None;
            CompanySnapshot.balanceSheet := CompanySnapshot.balanceSheet apple_snapshot;
            CompanySnapshot.cashFlow := CompanySnapshot.cashFlow apple_snapshot |} |}.
Proof. vm_compute. reflexivity. Qed.

(** C2 as stated fails, whatever the conversions: with a profile whose
    [currency] is not a string the model rejects the snapshot although
    the profile list is not empty and the three statement lists are. *)
Lemma snapshot_odd_profile_counterexample :
  ¬ ∃ L : Lax, snapshot_never_fails_on_empty_statements L.
Proof.
  intros [L Hclaim].
  destruct (Hclaim demo_client "aapl" up_odd_profile odd_profile [] [] [] [])
    as (snap & Hresp & _).
  - repeat split; eexists; repeat split; reflexivity.
  - left. reflexivity.
  - vm_compute in Hresp. discriminate Hresp.
Qed.

(** The response to that input. *)
Example snapshot_odd_profile_500 {L : Lax} :
  (app demo_client (GET_snapshot "aapl") up_odd_profile).1
  = {| status := 500; body := InternalServerError |}.
Proof. vm_compute. reflexivity. Qed.

(** ** C3: the date of the snapshot *)



(** The second case of the example: without an income date the
    balance-sheet date is reported. *)
Example snapshot_asOf_undated_income :
  ∃ snap,
    (app (L:=strict) demo_client (GET_snapshot "aapl") up_apple_undated).1
    = {| status := 200; body := Snapshot snap |}
    ∧ CompanySnapshot.asOf snap = Some "2023-12-30".
Proof. eexists. split; vm_compute; reflexivity. Qed.

(** ** C4: a failing upstream status *)

Lemma str_prefix_split (n : nat) (s : string) :
  ∃ rest, s = str_prefix n s +:+ rest
          ∧ String.length (str_prefix n s) = Nat.min n (String.length s).
Proof.
  unfold str_prefix. revert s. induction n as [|n IH]; intros s.
  - exists s. destruct s; split; reflexivity.
  - destruct s as [|c s]; [exists EmptyString; split; reflexivity|].
    destruct (IH s) as (rest & Hs & Hlen). exists rest. simpl.
    split; [change (String c s = String c (substring 0 n s +:+ rest)); f_equal; exact Hs
           |f_equal; exact Hlen].
Qed.

(** C4. [resp.ok] is false exactly for the codes 400 to 599. A call that
    completes with one of them makes the client raise [RuntimeError] with
    the message ["FMP API error: <status> <excerpt>"], the excerpt being
    the first 200 characters of the body, or the whole body when it has
    fewer; whichever endpoint made that call then answers 502 with that
    message as detail, which contains the status code. A call that
    completes with any other status, inside the range 200 to 299 or not,
    raises no such error: the client goes on to [resp.json()]. *)
Theorem upstream_status_error {L : Lax} (client : FMPClient.t) :
  (∀ resp, ok resp = false ↔ 400 ≤ status_code resp < 600)
  ∧ (∀ endpoint ps (up : upstream) (log : list call) resp,
       up (length log) (request_of client endpoint ps) = Responded resp →
       ok resp = false →
       ∃ excerpt rest,
         (FMPClient._get client endpoint ps up log).1
         = Err (RuntimeError
                  ("FMP API error: " +:+ str_of_int (status_code resp) +:+ " "
                     +:+ excerpt))
         ∧ text resp = excerpt +:+ rest
         ∧ String.length excerpt = Nat.min 200 (String.length (text resp)))
  ∧ (∀ rq (up : upstream) (c : call) resp,
       c ∈ (app client rq up).2 → c.2 = Responded resp → ok resp = false →
       ∃ excerpt rest detail,
         detail = "FMP API error: " +:+ str_of_int (status_code resp) +:+ " "
                    +:+ excerpt
         ∧ text resp = excerpt +:+ rest
         ∧ String.length excerpt = Nat.min 200 (String.length (text resp))
         ∧ (app client rq up).1 = {| status := 502; body := Detail detail |}
         ∧ mentions detail (str_of_int (status_code resp)))
  ∧ (∀ endpoint ps (up : upstream) (log : list call) resp,
       up (length log) (request_of client endpoint ps) = Responded resp →
       ok resp = true →
       (FMPClient._get client endpoint ps up log).1 = resp_json resp).
Proof.
  split; [|split; [|split]].
  - intros resp. unfold ok. rewrite negb_false_iff, andb_true_iff.
    rewrite Z.leb_le, Z.ltb_lt. reflexivity.
  - intros endpoint ps up log resp Hup Hok.
    destruct (str_prefix_split 200 (text resp)) as (rest & Hsplit & Hlen).
    exists (str_prefix 200 (text resp)), rest.
    rewrite get_run. simpl. rewrite Hup. simpl. rewrite Hok.
    split; [reflexivity|]. split; assumption.
  - intros rq up c resp Hc Hresp Hok.
    destruct (app_fail_fast client rq up) as [_ Hfat].
    destruct (str_prefix_split 200 (text resp)) as (rest & Hsplit & Hlen).
    exists (str_prefix 200 (text resp)), rest, (FMPClient.error_message resp).
    split; [reflexivity|]. split; [exact Hsplit|]. split; [exact Hlen|]. split.
    + rewrite (Hfat c (RuntimeError (FMPClient.error_message resp)) Hc); [reflexivity|].
      rewrite Hresp. simpl. rewrite Hok. reflexivity.
    + exists "FMP API error: ", (" " +:+ str_prefix 200 (text resp)). reflexivity.
  - intros endpoint ps up log resp Hup Hok.
    rewrite get_run. simpl. rewrite Hup. simpl. rewrite Hok. reflexivity.
Qed.

Lemma upstream_status_error_witness :
  (∃ excerpt rest,
     (FMPClient._get demo_client "profile" [("symbol", JStr "AAPL")] up_500 []).1
     = Err (RuntimeError ("FMP API error: " +:+ "500" +:+ " " +:+ excerpt))
     ∧ "Internal error" = excerpt +:+ rest
     ∧ String.length excerpt = Nat.min 200 (String.length "Internal error"))
  ∧ ∃ detail,
      (app (L:=strict) demo_client (GET_history "aapl" (Some 3)) up_500).1
      = {| status := 502; body := Detail detail |}
      ∧ mentions detail "500".
Proof.
  destruct (upstream_status_error (L:=strict) demo_client) as (_ & Hget & Happ & _).
  split.
  - apply (Hget "profile" [("symbol", JStr "AAPL")] up_500 [] http_500); reflexivity.
  - destruct (Happ (GET_history "aapl" (Some 3)) up_500
                (income_request demo_client "aapl" 3, Responded http_500) http_500)
      as (excerpt & rest & detail & _ & _ & _ & Hresp & Hm).
    + vm_compute. apply list_elem_of_here.
    + reflexivity.
    + reflexivity.
    + exists detail. split; assumption.
Defined.

(** C4 as stated fails: a call answered 304 Not Modified completes with
    a status outside the success range, yet [resp.ok] holds, the client
    raises no [RuntimeError] and reads the empty body, and the response
    is a 500. *)
Lemma upstream_not_modified_counterexample :
  ¬ ∃ L : Lax, every_other_status_is_an_upstream_error L.
Proof.
  intros [L [_ Hclaim]].
  destruct (Hclaim demo_client (GET_search (Some "apple") None) up_not_modified
              (search_request demo_client "apple" 10, Responded http_304) http_304)
    as (detail & Hresp & _).
  - vm_compute. apply list_elem_of_here.
  - reflexivity.
  - simpl. lia.
  - vm_compute in Hresp. discriminate Hresp.
Qed.

(** The response to that input, and what the client itself does. *)
Example upstream_not_modified_500 {L : Lax} :
  (app demo_client (GET_search (Some "apple") None) up_not_modified).1
  = {| status := 500; body := InternalServerError |}
  ∧ (FMPClient._get demo_client "search-symbol" [] up_not_modified []).1
    = Err JSONDecodeError.
Proof. split; vm_compute; reflexivity. Qed.

(** ** C5: an upstream timeout *)

(** C5. Every call the application makes carries the ten-second timeout;
    but a call that runs into it raises [requests]' [Timeout], which is
    not a [RuntimeError], so the response is the 500 of the server-error
    middleware and not a 502. *)
Theorem timeout_is_not_handled {L : Lax} (client : FMPClient.t) rq (up : upstream) :
  Forall (λ c : call, timeout c.1 = 10) (app client rq up).2
  ∧ (∀ c : call, c ∈ (app client rq up).2 → c.2 = TimedOut →
       (app client rq up).1 = {| status := 500; body := InternalServerError |}).
Proof.
  destruct (app_fail_fast client rq up) as [Hto Hfat].
  split; [assumption|].
  intros c Hc Hout. rewrite (Hfat c Timeout Hc); [reflexivity|].
  rewrite Hout. reflexivity.
Qed.

Lemma timeout_is_not_handled_witness :
  (app (L:=strict) demo_client (GET_snapshot "AAPL") up_slow).1
  = {| status := 500; body := InternalServerError |}.
Proof.
  destruct (timeout_is_not_handled (L:=strict) demo_client (GET_snapshot "AAPL") up_slow)
    as [_ H].
  apply (H (profile_request demo_client "AAPL", TimedOut)).
  - vm_compute. apply list_elem_of_here.
  - reflexivity.
Defined.

(** ** C6: failures outside the three kinds *)

(** C6. Whatever conversions the models apply, a search record with
    neither [name] nor [companyName] and an income row without [date]
    each end the request in the 500 of the server-error middleware: not
    a 4xx for the request, not a 404, not a 502. *)
Theorem schema_errors_escape_as_500 {L : Lax} (client : FMPClient.t) :
  (app client (GET_search (Some "apple") None) up_nameless_record).1
  = {| status := 500; body := InternalServerError |}
  ∧ (app client (GET_history "aapl" None) up_undated_row).1
    = {| status := 500; body := InternalServerError |}.
Proof. split; vm_compute; reflexivity. Qed.

(** ** C7: the history endpoint *)

Lemma company_history_run {L : Lax} client symbol years up income_list :
  returns up 0 (income_request client symbol years) income_list →
  (company_history client symbol years up []).1
  = if negb (truthy income_list)
    then Err (HTTPException 404 "No income statement data found")
    else (rows ← py_iter income_list;
          points ← for_each history_point rows;
          mret (CompanyHistoryResponse.mk (upper symbol) points)).
Proof.
  intros Hret. apply reply_Ok in Hret.
  unfold company_history, FMPClient.get_income_statement.
  unfold mbind at 1, M_bind at 1. rewrite get_run. simpl.
  fold (statement_params symbol years). fold (income_request client symbol years).
  rewrite Hret. destruct (truthy income_list); reflexivity.
Qed.

Lemma history_point_maps {L : Lax} (m : gmap string json) :
  row_ok m → ∃ pt, history_point (JObj m) = Ok pt ∧ row_maps m pt.
Proof.
  intros ([d Hd] & [r Hr] & [n Hn]). unfold history_point, row_maps. simpl.
  unfold HistoryPoint.new. rewrite Hd, Hr, Hn. simpl.
  eexists. split; [reflexivity|]. simpl. repeat split; reflexivity.
Qed.

Lemma valid_years (years : Z) :
  1 ≤ years ≤ 20 → (1 <=? years) && (years <=? 20) = true.
Proof. intros [Hlo Hhi]. apply andb_true_intro. split; apply Z.leb_le; lia. Qed.

(** C7, as amended. When the income-statement call returns a non-empty
    list whose rows each have a string [date] and, as [revenue] and
    [netIncome], nothing or a value a float field accepts, the history
    endpoint answers 200 with one point per row, in the upstream order;
    each point holds the row's [date], [revenue] and [netIncome] and
    nothing else: a row without [revenue] gives a point without
    [revenue], whatever [revenueTTM] it has, and the same for
    [netIncome]. *)
Theorem history_maps_rows {L : Lax} (client : FMPClient.t) symbol years (up : upstream)
    (rows : list (gmap string json)) :
  1 ≤ default 5 years ≤ 20 →
  rows ≠ [] →
  returns up 0 (income_request client symbol (default 5 years)) (JArr (JObj <$> rows)) →
  Forall row_ok rows →
  ∃ h,
    (app client (GET_history symbol years) up).1 = {| status := 200; body := History h |}
    ∧ Forall2
        (λ m pt, row_maps m pt
                 ∧ (dict_get m "revenue" = JNull → HistoryPoint.revenue pt = None)
                 ∧ (dict_get m "netIncome" = JNull → HistoryPoint.netIncome pt = None))
        rows (CompanyHistoryResponse.points h).
Proof.
  intros Hyears Hne Hret Hrows.
  assert (Hloop : ∃ points, for_each history_point (JObj <$> rows) = Ok points
            ∧ Forall2
                (λ m pt, row_maps m pt
                   ∧ (dict_get m "revenue" = JNull → HistoryPoint.revenue pt = None)
                   ∧ (dict_get m "netIncome" = JNull → HistoryPoint.netIncome pt = None))
                rows points).
  { clear Hret Hne. induction Hrows as [|m rows Hm _ (points & Hpts & Hmaps)].
    - exists []. split; [reflexivity|constructor].
    - destruct (history_point_maps m Hm) as (pt & Hpt & Hmap).
      exists (pt :: points). rewrite fmap_cons. cbn [for_each].
      rewrite Hpt, Hpts. split; [reflexivity|]. constructor; [|assumption].
      split; [exact Hmap|]. destruct Hmap as (_ & Hr & Hn).
      split; intros Hnull; [rewrite Hnull in Hr|rewrite Hnull in Hn]; simpl in *;
        congruence. }
  destruct Hloop as (points & Hpts & Hmaps).
  exists (CompanyHistoryResponse.mk (upper symbol) points). split; [|exact Hmaps].
  unfold app. rewrite (valid_years _ Hyears). unfold serve.
  pose proof (company_history_run client symbol (default 5 years) up _ Hret) as Hrun.
  destruct (company_history client symbol (default 5 years) up []) as [r log].
  cbn [fst] in *. subst r.
  assert (Ht : truthy (JArr (JObj <$> rows)) = true)
    by (destruct rows; [congruence|reflexivity]).
  rewrite Ht. simpl. rewrite Hpts. reflexivity.
Qed.

Lemma history_maps_rows_witness :
  ∃ h,
    (app (L:=strict) demo_client (GET_history "aapl" (Some 3)) up_apple_rows).1
    = {| status := 200; body := History h |}
    ∧ Forall2
        (λ m pt, row_maps (L:=strict) m pt
                 ∧ (dict_get m "revenue" = JNull → HistoryPoint.revenue pt = None)
                 ∧ (dict_get m "netIncome" = JNull → HistoryPoint.netIncome pt = None))
        apple_rows (CompanyHistoryResponse.points h).
Proof.
  apply (history_maps_rows (L:=strict) demo_client "aapl" (Some 3) up_apple_rows apple_rows).
  - simpl. lia.
  - discriminate.
  - eexists. repeat split; reflexivity.
  - repeat constructor; eexists; reflexivity.
Defined.

(** Three rows give three points in the same order; the second row has
    [revenueTTM] but no [revenue], and its point has no revenue. *)
Example history_apple_rows :
  (app (L:=strict) demo_client (GET_history "aapl" (Some 3)) up_apple_rows).1
  = {| status := 200;
       body := History
         (CompanyHistoryResponse.mk "AAPL"
            [ HistoryPoint.mk "2023-09-30" (float_of_int 383285000000)
                (float_of_int 96995000000);
              HistoryPoint.mk "2022-09-24" None (float_of_int 99803000000);
              HistoryPoint.mk "2021-09-25" (float_of_int 365817000000)
                (float_of_int 94680000000) ]) |}.
Proof. vm_compute. reflexivity. Qed.

(** C7 as stated fails, whatever the conversions: a row without [date]
    gets no point; the constructor rejects it and the request ends in a
    500. *)
Lemma history_undated_row_counterexample :
  ¬ ∃ L : Lax, history_has_a_point_for_every_row L.
Proof.
  intros [L Hclaim].
  destruct (Hclaim demo_client "aapl" None up_undated_row [undated_row])
    as (h & Hresp & _).
  - simpl. lia.
  - discriminate.
  - eexists. repeat split; reflexivity.
  - vm_compute in Hresp. discriminate Hresp.
Qed.

(** The response to that input. *)
Example history_undated_row_500 {L : Lax} :
  (app demo_client (GET_history "aapl" None) up_undated_row).1
  = {| status := 500; body := InternalServerError |}.
Proof. vm_compute. reflexivity. Qed.

(** ** C8: the search endpoint *)

Lemma search_companies_run {L : Lax} client q limit up raw :
  returns up 0 (search_request client q limit) raw →
  (search_companies client q limit up []).1
  = (items ← py_iter raw;
     results ← for_each search_item items;
     mret (CompanySearchResponse.mk results)).
Proof.
  intros Hret. apply reply_Ok in Hret.
  unfold search_companies, FMPClient.search_symbol.
  unfold mbind at 1, M_bind at 1. rewrite get_run. simpl.
  fold (search_request client q limit). rewrite Hret. reflexivity.
Qed.

Lemma search_item_maps {L : Lax} (m : gmap string json) :
  item_ok m → ∃ item, search_item (JObj m) = Ok item ∧ item_maps m item.
Proof.
  intros ([s Hs] & [n Hn] & Hx & Hc). rewrite search_item_dict.
  unfold item_maps. rewrite Hs, Hn.
  destruct Hx as [->|[x ->]], Hc as [->|[c ->]]; simpl;
    eexists; (split; [reflexivity|]); simpl; repeat split; reflexivity.
Qed.

Lemma valid_search_query (q : string) (limit : Z) :
  q ≠ EmptyString → 1 ≤ limit ≤ 50 →
  (1 <=? Z.of_nat (String.length q)) && (1 <=? limit) && (limit <=? 50) = true.
Proof.
  intros Hq [Hlo Hhi]. destruct q as [|c q]; [congruence|]. simpl String.length.
  apply andb_true_intro. split; [apply andb_true_intro; split|]; apply Z.leb_le; lia.
Qed.

(** C8, as amended. When every record of the upstream list has a string
    [symbol], a string as its [name] (or, [name] being absent or empty,
    as its [companyName]) and strings or nothing as [stockExchange] and
    [currency], the search endpoint answers 200 with one item per
    record, in the upstream order: [symbol] passed through, [name] the
    record's [name] or else its [companyName], [exchange] its
    [stockExchange], [currency] its [currency]. *)
Theorem search_maps_records {L : Lax} (client : FMPClient.t) q limit (up : upstream)
    (raw : list (gmap string json)) :
  q ≠ EmptyString →
  1 ≤ default 10 limit ≤ 50 →
  returns up 0 (search_request client q (default 10 limit)) (JArr (JObj <$> raw)) →
  Forall item_ok raw →
  ∃ r,
    (app client (GET_search (Some q) limit) up).1
    = {| status := 200; body := SearchResults r |}
    ∧ Forall2 item_maps raw (CompanySearchResponse.results r).
Proof.
  intros Hq Hlimit Hret Hraw.
  assert (Hloop : ∃ results, for_each search_item (JObj <$> raw) = Ok results
                             ∧ Forall2 item_maps raw results).
  { clear Hret. induction Hraw as [|m raw Hm _ (results & Hres & Hmaps)].
    - exists []. split; [reflexivity|constructor].
    - destruct (search_item_maps m Hm) as (item & Hitem & Hmap).
      exists (item :: results). rewrite fmap_cons. cbn [for_each].
      rewrite Hitem, Hres. split; [reflexivity|constructor; assumption]. }
  destruct Hloop as (results & Hres & Hmaps).
  exists (CompanySearchResponse.mk results). split; [|exact Hmaps].
  simpl. rewrite (valid_search_query q _ Hq Hlimit). unfold serve.
  pose proof (search_companies_run client q (default 10 limit) up _ Hret) as Hrun.
  destruct (search_companies client q (default 10 limit) up []) as [r log].
  simpl in *. subst r. rewrite Hres. reflexivity.
Qed.

Lemma search_maps_records_witness :
  ∃ r,
    (app (L:=strict) demo_client (GET_search (Some "apple") None) up_apple_record).1
    = {| status := 200; body := SearchResults r |}
    ∧ Forall2 item_maps [apple_record] (CompanySearchResponse.results r).
Proof.
  apply (search_maps_records (L:=strict) demo_client "apple" None up_apple_record
           [apple_record]).
  - discriminate.
  - simpl. lia.
  - eexists. repeat split; reflexivity.
  - repeat constructor; (eexists; reflexivity) || (right; eexists; reflexivity).
Defined.

(** The example of the specification: a record without [name]. *)
Example search_apple_record :
  (app (L:=strict) demo_client (GET_search (Some "apple") None) up_apple_record).1
  = {| status := 200;
       body := SearchResults
                 (CompanySearchResponse.mk
                    [CompanySearchItem.mk "AAPL" "Apple Inc." (Some "NASDAQ") (Some "USD")]) |}.
Proof. vm_compute. reflexivity. Qed.

(** C8 as stated fails, whatever the conversions: a record with neither
    [name] nor [companyName] is not mapped to an item; the constructor
    rejects it and the request ends in a 500. *)
Lemma search_nameless_record_counterexample :
  ¬ ∃ L : Lax, search_maps_every_record L.
Proof.
  intros [L Hclaim].
  destruct (Hclaim demo_client "apple" None up_nameless_record [nameless_record])
    as (r & Hresp & _).
  - discriminate.
  - simpl. lia.
  - eexists. repeat split; reflexivity.
  - vm_compute in Hresp. discriminate Hresp.
Qed.

(** The response to that input. *)
Example search_nameless_record_500 {L : Lax} :
  (app demo_client (GET_search (Some "apple") None) up_nameless_record).1
  = {| status := 500; body := InternalServerError |}.
Proof. vm_compute. reflexivity. Qed.

(** ** C9: the symbol of the snapshot *)





(** ** C10: name and exchange of the snapshot *)



(** ** The discipline of the computations *)

Lemma locally_failing_bind {A B : Type} (r : result A) (k : A → result B) :
  locally_failing r → (∀ a, locally_failing (k a)) → locally_failing (r ≫= k).
Proof.
  intros Hr Hk e. destruct r as [a|e']; simpl.
  - apply Hk.
  - intros [= <-]. apply Hr. reflexivity.
Qed.

Lemma locally_failing_Ok {A : Type} (a : A) : locally_failing (Ok a).
Proof. intros e. discriminate. Qed.

Lemma locally_failing_ret {A : Type} (a : A) : locally_failing (mret a).
Proof. intros e. discriminate. Qed.

Lemma locally_failing_if {A : Type} (b : bool) (r1 r2 : result A) :
  locally_failing r1 → locally_failing r2 → locally_failing (if b then r1 else r2).
Proof. destruct b; auto. Qed.

Lemma locally_failing_py_get v k : locally_failing (py_get v k).
Proof. intros e. destruct v; simpl; intros [= <-]; exact I. Qed.

Lemma locally_failing_py_getitem0 v : locally_failing (py_getitem0 v).
Proof.
  intros e. destruct v as [| | | |s|l|]; simpl; try (intros [= <-]; exact I).
  - destruct s; intros [= <-]; exact I.
  - destruct l; intros [= <-]; exact I.
Qed.

Lemma locally_failing_py_iter v : locally_failing (py_iter v).
Proof. intros e. destruct v; simpl; intros [= <-]; exact I. Qed.

Lemma locally_failing_py_get_or v k1 k2 : locally_failing (py_get_or v k1 k2).
Proof.
  apply locally_failing_bind; [apply locally_failing_py_get|]. intros a.
  apply locally_failing_if; [apply locally_failing_ret|apply locally_failing_py_get].
Qed.

Lemma locally_failing_first_or_empty l : locally_failing (first_or_empty l).
Proof.
  apply locally_failing_if; [apply locally_failing_py_getitem0|apply locally_failing_Ok].
Qed.

Lemma locally_failing_for_each {A B : Type} (f : A → result B) (l : list A) :
  (∀ x, locally_failing (f x)) → locally_failing (for_each f l).
Proof.
  intros Hf. induction l as [|x l IH]; simpl; [apply locally_failing_Ok|].
  intros e. destruct (f x) as [y|e'] eqn:Ex.
  - destruct (for_each f l) as [ys|e'']; [discriminate|].
    intros [= <-]. apply IH. reflexivity.
  - intros [= <-]. apply (Hf x). exact Ex.
Qed.

Lemma locally_failing_search_item_new {L : Lax} a b c d :
  locally_failing (CompanySearchItem.new a b c d).
Proof.
  intros e. unfold CompanySearchItem.new.
  repeat match goal with |- context [match ?x with _ => _ end] => destruct x end;
    intros [= <-]; exact I.
Qed.

Lemma locally_failing_income_new {L : Lax} a b : locally_failing (IncomeSnapshot.new a b).
Proof.
  intros e. unfold IncomeSnapshot.new.
  repeat match goal with |- context [match ?x with _ => _ end] => destruct x end;
    intros [= <-]; exact I.
Qed.

Lemma locally_failing_balance_new {L : Lax} a b :
  locally_failing (BalanceSheetSnapshot.new a b).
Proof.
  intros e. unfold BalanceSheetSnapshot.new.
  repeat match goal with |- context [match ?x with _ => _ end] => destruct x end;
    intros [= <-]; exact I.
Qed.

Lemma locally_failing_cashflow_new {L : Lax} a : locally_failing (CashFlowSnapshot.new a).
Proof.
  intros e. unfold CashFlowSnapshot.new.
  repeat match goal with |- context [match ?x with _ => _ end] => destruct x end;
    intros [= <-]; exact I.
Qed.

Lemma locally_failing_snapshot_new {L : Lax} s a b c d i bs cf :
  locally_failing (CompanySnapshot.new s a b c d i bs cf).
Proof.
  intros e. unfold CompanySnapshot.new.
  repeat match goal with |- context [match ?x with _ => _ end] => destruct x end;
    intros [= <-]; exact I.
Qed.

Lemma locally_failing_point_new {L : Lax} a b c : locally_failing (HistoryPoint.new a b c).
Proof.
  intros e. unfold HistoryPoint.new.
  repeat match goal with |- context [match ?x with _ => _ end] => destruct x end;
    intros [= <-]; exact I.
Qed.

Create HintDb local.

#[local] Hint Resolve locally_failing_Ok locally_failing_ret locally_failing_if
  locally_failing_py_get locally_failing_py_getitem0 locally_failing_py_iter
  locally_failing_py_get_or locally_failing_first_or_empty
  locally_failing_search_item_new locally_failing_income_new
  locally_failing_balance_new locally_failing_cashflow_new
  locally_failing_snapshot_new locally_failing_point_new : local.

Ltac local_steps :=
  repeat (apply locally_failing_bind; [auto with local|]; intros ?); auto with local.

Lemma locally_failing_search_item {L : Lax} item : locally_failing (search_item item).
Proof. unfold search_item. local_steps. Qed.

Lemma locally_failing_history_point {L : Lax} row : locally_failing (history_point row).
Proof. unfold history_point. local_steps. Qed.

Lemma locally_failing_build_snapshot {L : Lax} symbol name currency exchange il bl cl :
  locally_failing (build_snapshot symbol name currency exchange il bl cl).
Proof.
  unfold build_snapshot.
  do 3 (apply locally_failing_bind; [auto with local|]; intros ?).
  apply locally_failing_bind.
  { apply locally_failing_bind; [auto with local|]. intros d.
    apply locally_failing_if; [auto with local|].
    apply locally_failing_bind; [auto with local|]. intros d'. auto with local. }
  intros as_of.
  apply locally_failing_bind; [local_steps|]. intros income.
  apply locally_failing_bind; [local_steps|]. intros balance.
  apply locally_failing_bind; [local_steps|]. intros cashflow.
  auto with local.
Qed.

Lemma disciplined_ret self {A : Type} (a : A) : disciplined self (mret a).
Proof.
  intros up log. exists []. simpl. rewrite app_nil_r.
  split; [reflexivity|]. split; [constructor|].
  split; [intros c e Hc; inversion Hc|discriminate].
Qed.

Lemma disciplined_not_found self {A : Type} detail :
  disciplined self (raise (A:=A) (HTTPException 404 detail)).
Proof.
  intros up log. exists []. simpl. rewrite app_nil_r.
  split; [reflexivity|]. split; [constructor|].
  split; [intros c e Hc; inversion Hc|].
  intros e [= <-]. right. left. eauto.
Qed.

Lemma disciplined_lift self {A : Type} (r : result A) :
  locally_failing r → disciplined self (lift r).
Proof.
  intros Hr up log. exists []. simpl. rewrite app_nil_r.
  split; [reflexivity|]. split; [constructor|].
  split; [intros c e Hc; inversion Hc|].
  intros e He. left. apply Hr. exact He.
Qed.

Lemma disciplined_bind self {A B : Type} (m : M A) (k : A → M B) :
  disciplined self m → (∀ a, disciplined self (k a)) → disciplined self (m ≫= k).
Proof.
  intros Hm Hk up log.
  destruct (Hm up log) as (new1 & Hlog1 & Hsent1 & Hstop1 & Hwhy1).
  unfold mbind, M_bind.
  destruct (m up log) as [[a|e] log1] eqn:Em; simpl in *; subst log1.
  - destruct (Hk a up (log ++ new1)) as (new2 & Hlog2 & Hsent2 & Hstop2 & Hwhy2).
    exists (new1 ++ new2). rewrite Hlog2, app_assoc.
    split; [reflexivity|]. split; [apply Forall_app; auto|]. split.
    + intros c e Hc Hr. apply elem_of_app in Hc as [Hc|Hc].
      * specialize (Hstop1 c e Hc Hr). discriminate.
      * eauto.
    + intros e He. destruct (Hwhy2 e He) as [Hl|[Hn|(c & Hc & Hr)]]; auto.
      right. right. exists c. split; [apply elem_of_app; auto|exact Hr].
  - exists new1. split; [reflexivity|]. split; [exact Hsent1|]. split.
    + intros c e0 Hc Hr. specialize (Hstop1 c e0 Hc Hr). congruence.
    + intros e0 [= <-]. apply Hwhy1. reflexivity.
Qed.

Lemma disciplined_if self {A : Type} (b : bool) (m1 m2 : M A) :
  disciplined self m1 → disciplined self m2 → disciplined self (if b then m1 else m2).
Proof. destruct b; auto. Qed.

Lemma disciplined_get self endpoint ps :
  sent_by self (request_of self endpoint ps) →
  disciplined self (FMPClient._get self endpoint ps).
Proof.
  intros Hsent up log. rewrite get_run. simpl.
  eexists. split; [reflexivity|].
  split; [constructor; [exact Hsent|constructor]|]. split.
  - intros c e Hc Hr. apply list_elem_of_singleton in Hc. subst c. exact Hr.
  - intros e He. right. right. eexists. split; [apply list_elem_of_here|exact He].
Qed.

Lemma disciplined_search_symbol self q limit :
  disciplined self (FMPClient.search_symbol self q limit).
Proof. apply disciplined_get. left. eauto. Qed.

Lemma disciplined_get_company_profile self symbol :
  disciplined self (FMPClient.get_company_profile self symbol).
Proof. apply disciplined_get. right. left. eauto. Qed.

Lemma disciplined_get_income_statement self symbol limit :
  disciplined self (FMPClient.get_income_statement self symbol "annual" limit).
Proof. apply disciplined_get. right. right. left. eauto. Qed.

Lemma disciplined_get_balance_sheet self symbol limit :
  disciplined self (FMPClient.get_balance_sheet self symbol "annual" limit).
Proof. apply disciplined_get. right. right. right. left. eauto. Qed.

Lemma disciplined_get_cash_flow self symbol limit :
  disciplined self (FMPClient.get_cash_flow self symbol "annual" limit).
Proof. apply disciplined_get. right. right. right. right. eauto. Qed.

Create HintDb disciplined.

#[local] Hint Resolve disciplined_ret disciplined_not_found disciplined_if
  disciplined_search_symbol disciplined_get_company_profile
  disciplined_get_income_statement disciplined_get_balance_sheet
  disciplined_get_cash_flow : disciplined.

Lemma disciplined_search_companies {L : Lax} client q limit :
  disciplined client (search_companies client q limit).
Proof.
  unfold search_companies.
  apply disciplined_bind; [auto with disciplined|]. intros raw.
  apply disciplined_lift. local_steps.
  apply locally_failing_for_each. apply locally_failing_search_item.
Qed.

Lemma disciplined_company_snapshot {L : Lax} client symbol :
  disciplined client (company_snapshot client symbol).
Proof.
  unfold company_snapshot.
  apply disciplined_bind; [auto with disciplined|]. intros profiles.
  apply disciplined_if; [auto with disciplined|].
  do 4 (apply disciplined_bind; [apply disciplined_lift; auto with local|]; intros ?).
  do 3 (apply disciplined_bind; [auto with disciplined|]; intros ?).
  apply disciplined_lift. apply locally_failing_build_snapshot.
Qed.

Lemma disciplined_company_history {L : Lax} client symbol years :
  disciplined client (company_history client symbol years).
Proof.
  unfold company_history.
  apply disciplined_bind; [auto with disciplined|]. intros income_list.
  apply disciplined_if; [auto with disciplined|].
  apply disciplined_lift. local_steps.
  apply locally_failing_for_each. apply locally_failing_history_point.
Qed.

Lemma respond_Err {A : Type} (render : A → content) (e : exn) :
  respond render (Err e) = error_response e.
Proof. destruct e; reflexivity. Qed.

Lemma serve_disciplined {L : Lax} self {A : Type} (render : A → content) (m : M A) up :
  disciplined self m →
  Forall (λ c : call, sent_by self c.1) (serve render m up).2
  ∧ (∀ c e, c ∈ (serve render m up).2 → reply c.2 = Err e →
       (serve render m up).1 = error_response e)
  ∧ (status (serve render m up).1 = 200
     ∨ ∃ e, (serve render m up).1 = error_response e
            ∧ explained (serve render m up).2 e).
Proof.
  intros Hm. destruct (Hm up []) as (new & Hlog & Hsent & Hstop & Hwhy).
  unfold serve. destruct (m up []) as [r log] eqn:Em. simpl in *. subst log.
  split; [exact Hsent|]. split.
  - intros c e Hc Hr. rewrite (Hstop c e Hc Hr). apply respond_Err.
  - destruct r as [a|e]; [left; reflexivity|].
    right. exists e. split; [apply respond_Err|]. apply Hwhy. reflexivity.
Qed.

Lemma rejected_search (q : string) (limit : Z) :
  (1 <=? Z.of_nat (String.length q)) && (1 <=? limit) && (limit <=? 50) = false
  ↔ q = EmptyString ∨ limit < 1 ∨ 50 < limit.
Proof.
  rewrite !andb_false_iff, !Z.leb_gt. split.
  - intros [[Hq|Hl]|Hh]; auto. left. destruct q; [reflexivity|]. simpl in Hq. lia.
  - intros [->|[Hl|Hh]]; auto; left; left; simpl; lia.
Qed.

Lemma rejected_history (years : Z) :
  (1 <=? years) && (years <=? 20) = false ↔ years < 1 ∨ 20 < years.
Proof. rewrite andb_false_iff, !Z.leb_gt. reflexivity. Qed.

(** What holds of every run of the application. *)
Lemma app_disciplined {L : Lax} client rq up :
  Forall (λ c : call, sent_by client c.1) (app client rq up).2
  ∧ (∀ c e, c ∈ (app client rq up).2 → reply c.2 = Err e →
       (app client rq up).1 = error_response e)
  ∧ (rejected rq ∧ app client rq up = (unprocessable, [])
     ∨ ¬ rejected rq
       ∧ (status (app client rq up).1 = 200
          ∨ ∃ e, (app client rq up).1 = error_response e
                 ∧ explained (app client rq up).2 e)).
Proof.
  assert (Hnil : ∀ resp : HTTPResponse,
             Forall (λ c : call, sent_by client c.1) []
             ∧ ∀ (c : call) e, c ∈ [] → reply c.2 = Err e → resp = error_response e).
  { intros resp. split; [constructor|]. intros c e Hc. inversion Hc. }
  destruct rq as [|q limit|symbol|symbol years]; simpl.
  - destruct (Hnil {| status := 200; body := health_check |}) as [H1 H2].
    split; [exact H1|]. split; [exact H2|]. right. split; [tauto|]. left. reflexivity.
  - destruct q as [q|].
    + destruct (_ && _) eqn:Hv.
      * destruct (serve_disciplined client SearchResults _ up
                    (disciplined_search_companies client q (default 10 limit)))
          as (H1 & H2 & H3).
        split; [exact H1|]. split; [exact H2|]. right. split; [|exact H3].
        intros Hr.
        assert (Hr' : q = EmptyString ∨ default 10 limit < 1 ∨ 50 < default 10 limit)
          by (destruct Hr as [Hq|[Hq|Hl]]; [discriminate|injection Hq; auto|auto]).
        apply rejected_search in Hr'. congruence.
      * destruct (Hnil unprocessable) as [H1 H2].
        split; [exact H1|]. split; [exact H2|]. left. split; [|reflexivity].
        apply rejected_search in Hv as [->|Hl]; auto.
    + destruct (Hnil unprocessable) as [H1 H2].
      split; [exact H1|]. split; [exact H2|]. left. split; [left|]; reflexivity.
  - destruct (serve_disciplined client Snapshot _ up
                (disciplined_company_snapshot client symbol)) as (H1 & H2 & H3).
    split; [exact H1|]. split; [exact H2|]. right. split; [tauto|exact H3].
  - destruct (_ && _) eqn:Hv.
    + destruct (serve_disciplined client History _ up
                  (disciplined_company_history client symbol (default 5 years)))
        as (H1 & H2 & H3).
      split; [exact H1|]. split; [exact H2|]. right. split; [|exact H3].
      intros Hr. apply rejected_history in Hr. congruence.
    + destruct (Hnil unprocessable) as [H1 H2].
      split; [exact H1|]. split; [exact H2|]. left. split; [|reflexivity].
      apply rejected_history. exact Hv.
Qed.

Lemma reply_Err (o : outcome) (e : exn) :
  reply o = Err e →
  (∃ resp, o = Responded resp ∧ ok resp = false
           ∧ e = RuntimeError (FMPClient.error_message resp))
  ∨ (∃ resp, o = Responded resp ∧ ok resp = true ∧ json_body resp = NotJSON
             ∧ e = JSONDecodeError)
  ∨ (∃ resp msg, o = Responded resp ∧ ok resp = true ∧ json_body resp = TooDeep msg
                 ∧ e = RecursionError msg)
  ∨ (o = TimedOut ∧ e = Timeout)
  ∨ (o = ConnectionFailed ∧ e = ConnectionError).
Proof.
  destruct o as [resp| |]; simpl.
  - destruct (ok resp) eqn:Hok.
    + unfold resp_json. destruct (json_body resp) as [j| |msg] eqn:Hj; [discriminate|..].
      * intros [= <-]. right. left. eauto.
      * intros [= <-]. right. right. left. eauto 6.
    + intros [= <-]. left. eauto.
  - intros [= <-]. auto 6.
  - intros [= <-]. auto 6.
Qed.

(** A call that makes the client raise a [RuntimeError]: it was answered
    with a status from 400 to 599, or with a body nested too deeply. *)
Lemma explained_502 (log : list call) (e : exn) (detail : string) :
  explained log e →
  error_response e = {| status := 502; body := Detail detail |} →
  ∃ c resp, c ∈ log ∧ c.2 = Responded resp
            ∧ (ok resp = false ∧ detail = FMPClient.error_message resp
               ∨ ok resp = true ∧ json_body resp = TooDeep detail).
Proof.
  intros [Hl|[[d ->]|(c & Hc & Hr)]] He.
  - destruct e; try contradiction; discriminate.
  - discriminate.
  - apply reply_Err in Hr
      as [(resp & Ho & Hok & ->)|[(resp & Ho & Hok & Hj & ->)
         |[(resp & msg & Ho & Hok & Hj & ->)|[[Ho ->]|[Ho ->]]]]];
      try discriminate; injection He as <-; eauto 8.
Qed.

Lemma explained_status (log : list call) (e : exn) :
  explained log e →
  status (error_response e) = 404
  ∨ status (error_response e) = 500
  ∨ (status (error_response e) = 502
     ∧ ∃ c resp, c ∈ log ∧ c.2 = Responded resp
                 ∧ (ok resp = false ∨ ∃ msg, json_body resp = TooDeep msg)).
Proof.
  intros [Hl|[[detail ->]|(c & Hc & Hr)]].
  - destruct e; try contradiction; auto.
  - auto.
  - apply reply_Err in Hr
      as [(resp & Ho & Hok & ->)|[(resp & Ho & Hok & Hj & ->)
         |[(resp & msg & Ho & Hok & Hj & ->)|[[Ho ->]|[Ho ->]]]]]; auto.
    + right. right. split; [reflexivity|]. eauto 6.
    + right. right. split; [reflexivity|]. eauto 8.
Qed.

(** ** Requests the framework rejects *)

(** X1. A search without [q], with an empty [q] or with a [limit] outside
    1..50, and a history request with [years] outside 1..20, are answered
    422 without any call to the provider; no other request is ever
    answered 422. *)
Theorem rejected_requests {L : Lax} (client : FMPClient.t) rq (up : upstream) :
  (status (app client rq up).1 = 422 ↔ rejected rq)
  ∧ (rejected rq → (app client rq up).2 = []).
Proof.
  destruct (app_disciplined client rq up) as (_ & _ & [[Hr Happ]|[Hr Hresp]]).
  - rewrite Happ. simpl. tauto.
  - split; [|tauto]. split; [|tauto]. intros Hs. exfalso.
    destruct Hresp as [H200|(e & He & Hexp)]; [congruence|].
    rewrite He in Hs.
    destruct (explained_status _ _ Hexp) as [H|[H|[H _]]]; congruence.
Qed.

(** ** The statuses of the service *)

(** X2. The service answers 502 exactly when one of the calls of the run
    made the client raise a [RuntimeError]: the call was answered with a
    status from 400 to 599, or with a body nested so deeply that
    [resp.json()] raised [RecursionError]. The status of a response is
    always one of 200, 404, 422, 500 and 502. *)
Theorem bad_gateway_iff {L : Lax} (client : FMPClient.t) rq (up : upstream) :
  (status (app client rq up).1 = 502
   ↔ ∃ c resp, c ∈ (app client rq up).2 ∧ c.2 = Responded resp
               ∧ (ok resp = false ∨ ∃ msg, json_body resp = TooDeep msg))
  ∧ status (app client rq up).1 ∈ [200; 404; 422; 500; 502].
Proof.
  destruct (app_disciplined client rq up) as (_ & Hstop & Hcases).
  split.
  - split.
    + intros Hs. destruct Hcases as [[_ Happ]|[_ [H200|(e & He & Hexp)]]].
      * rewrite Happ in Hs. discriminate.
      * congruence.
      * rewrite He in Hs.
        destruct (explained_status _ _ Hexp) as [H|[H|[_ H]]]; [congruence..|exact H].
    + intros (c & resp & Hc & Ho & Hwhy).
      destruct (ok resp) eqn:Hok.
      * destruct Hwhy as [Hf|[msg Hj]]; [discriminate|].
        rewrite (Hstop c (RecursionError msg) Hc); [reflexivity|].
        rewrite Ho. simpl. rewrite Hok. unfold resp_json. rewrite Hj. reflexivity.
      * rewrite (Hstop c (RuntimeError (FMPClient.error_message resp)) Hc);
          [reflexivity|].
        rewrite Ho. simpl. rewrite Hok. reflexivity.
  - destruct Hcases as [[_ Happ]|[_ [H200|(e & He & Hexp)]]].
    + rewrite Happ. simpl. set_solver.
    + rewrite H200. set_solver.
    + rewrite He.
      destruct (explained_status _ _ Hexp) as [H|[H|[H _]]]; rewrite H; set_solver.
Qed.

(** X3. Of the exceptions a call can end with otherwise, the handler
    sees one only. When a call of the run cannot reach the provider, or
    is answered with a successful status and a body that [resp.json()]
    rejects with [JSONDecodeError], the exception is not a
    [RuntimeError] and the response is a 500. When [resp.json()] raises
    [RecursionError], a subclass of [RuntimeError], the response is a
    502 with the message of that exception as detail. *)
Theorem transport_failures {L : Lax} (client : FMPClient.t) rq (up : upstream) (c : call) :
  c ∈ (app client rq up).2 →
  ((c.2 = ConnectionFailed
    ∨ ∃ resp, c.2 = Responded resp ∧ ok resp = true ∧ json_body resp = NotJSON) →
   (app client rq up).1 = {| status := 500; body := InternalServerError |})
  ∧ (∀ resp msg,
       c.2 = Responded resp → ok resp = true → json_body resp = TooDeep msg →
       (app client rq up).1 = {| status := 502; body := Detail msg |}).
Proof.
  intros Hc. destruct (app_disciplined client rq up) as (_ & Hstop & _).
  split.
  - intros [Ho|(resp & Ho & Hok & Hj)].
    + rewrite (Hstop c ConnectionError Hc); [reflexivity|]. rewrite Ho. reflexivity.
    + rewrite (Hstop c JSONDecodeError Hc); [reflexivity|].
      rewrite Ho. simpl. rewrite Hok. unfold resp_json. rewrite Hj. reflexivity.
  - intros resp msg Ho Hok Hj.
    rewrite (Hstop c (RecursionError msg) Hc); [reflexivity|].
    rewrite Ho. simpl. rewrite Hok. unfold resp_json. rewrite Hj. reflexivity.
Qed.

Lemma transport_failures_witness :
  (app (L:=strict) demo_client (GET_search (Some "apple") (Some 5)) up_not_json).1
  = {| status := 500; body := InternalServerError |}.
Proof.
  destruct (transport_failures (L:=strict) demo_client
              (GET_search (Some "apple") (Some 5)) up_not_json
              (search_request demo_client "apple" 5,
               up_not_json 0%nat (search_request demo_client "apple" 5)))
    as [H _].
  - vm_compute. apply list_elem_of_here.
  - apply H. right. eexists. repeat split; reflexivity.
Defined.

(** A body nested too deeply, on each endpoint. *)
Example too_deep_502 {L : Lax} :
  (app demo_client (GET_search (Some "apple") None) up_too_deep).1
  = {| status := 502; body := Detail "maximum recursion depth exceeded" |}
  ∧ (app demo_client (GET_snapshot "aapl") up_too_deep).1
    = {| status := 502; body := Detail "maximum recursion depth exceeded" |}
  ∧ (app demo_client (GET_history "aapl" None) up_too_deep).1
    = {| status := 502; body := Detail "maximum recursion depth exceeded" |}.
Proof. repeat split; vm_compute; reflexivity. Qed.

(** ** The requests of the client *)

Lemma params_get_set (k : string) (v : json) (ps : list (string * json)) :
  params_get k (params_set k v ps) = Some v.
Proof.
  induction ps as [|[k' v'] ps IH]; simpl.
  - rewrite String.eqb_refl. reflexivity.
  - destruct (String.eqb k k') eqn:Ek; simpl; rewrite Ek; [reflexivity|exact IH].
Qed.

Lemma sent_by_shape (client : FMPClient.t) (rq : Request) :
  sent_by client rq →
  ∃ endpoint,
    endpoint ∈ endpoint_names
    ∧ url rq = FMPClient.base_url client +:+ "/" +:+ endpoint
    ∧ params_get "apikey" (params rq) = Some (JStr (FMPClient.api_key client)).
Proof.
  intros [(q & limit & ->)|[(s & ->)|[(s & limit & ->)|[(s & limit & ->)
         |(s & limit & ->)]]]].
  - exists "search-symbol". split; [set_solver|]. split; [reflexivity|apply params_get_set].
  - exists "profile". split; [set_solver|]. split; [reflexivity|apply params_get_set].
  - exists "income-statement". split; [set_solver|].
    split; [reflexivity|apply params_get_set].
  - exists "balance-sheet-statement". split; [set_solver|].
    split; [reflexivity|apply params_get_set].
  - exists "cash-flow-statement". split; [set_solver|].
    split; [reflexivity|apply params_get_set].
Qed.

(** X4. Whatever the request and the provider, every call of a run goes
    to one of the five endpoints under the client's base URL and carries
    the client's key as its [apikey] parameter. *)
Theorem calls_carry_key {L : Lax} (client : FMPClient.t) rq (up : upstream) (c : call) :
  c ∈ (app client rq up).2 →
  ∃ endpoint,
    endpoint ∈ endpoint_names
    ∧ url c.1 = FMPClient.base_url client +:+ "/" +:+ endpoint
    ∧ params_get "apikey" (params c.1) = Some (JStr (FMPClient.api_key client)).
Proof.
  intros Hc. destruct (app_disciplined client rq up) as (Hsent & _).
  rewrite Forall_forall in Hsent. apply sent_by_shape, Hsent, Hc.
Qed.

Lemma calls_carry_key_witness :
  ∃ endpoint,
    endpoint ∈ endpoint_names
    ∧ url (profile_request demo_client "aapl")
      = FMPClient.base_url demo_client +:+ "/" +:+ endpoint
    ∧ params_get "apikey" (params (profile_request demo_client "aapl"))
      = Some (JStr (FMPClient.api_key demo_client)).
Proof.
  apply (calls_carry_key (L:=strict) demo_client (GET_snapshot "aapl") up_empty
           (profile_request demo_client "aapl", http_ok (JArr []))).
  vm_compute. apply list_elem_of_here.
Defined.

(** ** How many calls a request costs *)

Lemma search_companies_log {L : Lax} client q limit up :
  (search_companies client q limit up []).2
  = [(search_request client q limit, up 0%nat (search_request client q limit))].
Proof.
  unfold search_companies, FMPClient.search_symbol.
  unfold mbind at 1, M_bind at 1. rewrite get_run. simpl.
  fold (search_request client q limit).
  destruct (reply (up 0%nat (search_request client q limit))); reflexivity.
Qed.

Lemma company_history_log {L : Lax} client symbol years up :
  (company_history client symbol years up []).2
  = [(income_request client symbol years, up 0%nat (income_request client symbol years))].
Proof.
  unfold company_history, FMPClient.get_income_statement.
  unfold mbind at 1, M_bind at 1. rewrite get_run. simpl.
  fold (statement_params symbol years). fold (income_request client symbol years).
  destruct (reply (up 0%nat (income_request client symbol years))) as [j|e];
    [|reflexivity].
  destruct (truthy j); reflexivity.
Qed.

Lemma serve_log {L : Lax} {A : Type} (render : A → content) (m : M A) up :
  (serve render m up).2 = (m up []).2.
Proof. unfold serve. destruct (m up []). reflexivity. Qed.

Lemma serve_response {L : Lax} {A : Type} (render : A → content) (m : M A) up :
  (serve render m up).1 = respond render (m up []).1.
Proof. unfold serve. destruct (m up []). reflexivity. Qed.

(** X5. An accepted search makes exactly one call, whatever its outcome:
    to [search-symbol], with the query as typed, the limit (10 when left
    out), the fixed exchange filter and the key. An accepted history
    request makes exactly one call: to [income-statement], with the
    symbol in upper case, the annual period, [years] (5 when left out) as
    the limit and the key. *)
Theorem one_call_endpoints {L : Lax} (client : FMPClient.t) (up : upstream) :
  (∀ q limit, q ≠ EmptyString → 1 ≤ default 10 limit ≤ 50 →
     ∃ rq,
       (app client (GET_search (Some q) limit) up).2 = [(rq, up 0%nat rq)]
       ∧ url rq = FMPClient.base_url client +:+ "/search-symbol"
       ∧ params rq = [("query", JStr q); ("limit", JInt (default 10 limit));
                      ("exchange", JStr "NASDAQ,NYSE,AMEX");
                      ("apikey", JStr (FMPClient.api_key client))])
  ∧ (∀ symbol years, 1 ≤ default 5 years ≤ 20 →
       ∃ rq,
         (app client (GET_history symbol years) up).2 = [(rq, up 0%nat rq)]
         ∧ url rq = FMPClient.base_url client +:+ "/income-statement"
         ∧ params rq = [("symbol", JStr (upper symbol)); ("period", JStr "annual");
                        ("limit", JInt (default 5 years));
                        ("apikey", JStr (FMPClient.api_key client))]).
Proof.
  split.
  - intros q limit Hq Hlimit. exists (search_request client q (default 10 limit)).
    split; [|split; reflexivity].
    unfold app. rewrite (valid_search_query q _ Hq Hlimit).
    rewrite serve_log. apply search_companies_log.
  - intros symbol years Hyears. exists (income_request client symbol (default 5 years)).
    split; [|split; reflexivity].
    unfold app. rewrite (valid_years _ Hyears).
    rewrite serve_log. apply company_history_log.
Qed.

Lemma one_call_endpoints_witness :
  (∃ rq,
     (app (L:=strict) demo_client (GET_search (Some "apple") None) up_500).2
     = [(rq, up_500 0%nat rq)]
     ∧ url rq = FMPClient.base_url demo_client +:+ "/search-symbol"
     ∧ params rq = [("query", JStr "apple"); ("limit", JInt 10);
                    ("exchange", JStr "NASDAQ,NYSE,AMEX");
                    ("apikey", JStr (FMPClient.api_key demo_client))])
  ∧ ∃ rq,
      (app (L:=strict) demo_client (GET_history "aapl" (Some 3)) up_apple_rows).2
      = [(rq, up_apple_rows 0%nat rq)]
      ∧ url rq = FMPClient.base_url demo_client +:+ "/income-statement"
      ∧ params rq = [("symbol", JStr (upper "aapl")); ("period", JStr "annual");
                     ("limit", JInt 3);
                     ("apikey", JStr (FMPClient.api_key demo_client))].
Proof.
  destruct (one_call_endpoints (L:=strict) demo_client up_500) as [Hs _].
  destruct (one_call_endpoints (L:=strict) demo_client up_apple_rows) as [_ Hh].
  split.
  - apply (Hs "apple" None); [discriminate|simpl; lia].
  - apply (Hh "aapl" (Some 3)). simpl. lia.
Defined.

Lemma profile_fields_dict (m : gmap string json) (rest : list json) :
  ∃ fields, profile_fields (JArr (JObj m :: rest)) = Ok fields.
Proof.
  unfold profile_fields, py_get_or. simpl.
  destruct (truthy (dict_get m "companyName")),
    (truthy (dict_get m "exchangeShortName")); eexists; reflexivity.
Qed.

Lemma profile_fields_shape (profiles : json) (fields : json * json * json) :
  profile_fields profiles = Ok fields → ∃ m rest, profiles = JArr (JObj m :: rest).
Proof.
  destruct fields as [[name currency] exchange]. intros Hp.
  apply profile_fields_Ok in Hp as (p & Hp & _).
  destruct profiles as [| | | |s|l|m]; try discriminate.
  - destruct s; discriminate.
  - destruct l as [|x l]; [discriminate|]. injection Hp as ->. eauto.
Qed.

Lemma locally_failing_profile_fields profiles : locally_failing (profile_fields profiles).
Proof. unfold profile_fields. local_steps. Qed.

Lemma respond_local {A : Type} (render : A → content) (e : exn) :
  local_error e → respond render (Err e) = {| status := 500; body := InternalServerError |}.
Proof. destruct e; simpl; try contradiction; reflexivity. Qed.

Lemma respond_reply_not_200 {A : Type} (render : A → content) (o : outcome) (e : exn) :
  reply o = Err e → status (respond render (Err e)) ≠ 200.
Proof.
  intros Hr. apply reply_Err in Hr
    as [(resp & _ & _ & ->)|[(resp & _ & _ & _ & ->)
       |[(resp & msg & _ & _ & _ & ->)|[[_ ->]|[_ ->]]]]]; discriminate.
Qed.

(** X6. A snapshot request makes its calls in the order profile, income
    statement, balance sheet, cash flow, each statement for the annual
    period with limit 1. It makes at least the first; every call but the
    last of the run returned; when the last call failed, the response is
    the one to its exception; the run stops before the fourth call only
    after a call that failed, or after a profile call that returned
    something other than a list starting with an object; it goes beyond
    the first call only after such a list; and a 200 is answered only
    after all four. *)
Theorem snapshot_calls_in_order {L : Lax} (client : FMPClient.t) symbol (up : upstream) :
  ∃ n, (1 ≤ n ≤ 4)%nat
       ∧ (app client (GET_snapshot symbol) up).2 = take n (snapshot_calls client symbol up)
       ∧ (∀ i c, (S i < n)%nat → snapshot_calls client symbol up !! i = Some c →
            ∃ j, reply c.2 = Ok j)
       ∧ (∀ c e, snapshot_calls client symbol up !! (n - 1)%nat = Some c →
            reply c.2 = Err e →
            (app client (GET_snapshot symbol) up).1 = error_response e)
       ∧ ((n < 4)%nat →
          (∃ c e, snapshot_calls client symbol up !! (n - 1)%nat = Some c
                  ∧ reply c.2 = Err e)
          ∨ (n = 1%nat
             ∧ ∃ profiles, reply (up 0%nat (profile_request client symbol)) = Ok profiles
                           ∧ ∀ m rest, profiles ≠ JArr (JObj m :: rest)))
       ∧ ((2 ≤ n)%nat →
          ∃ m rest, reply (up 0%nat (profile_request client symbol))
                    = Ok (JArr (JObj m :: rest)))
       ∧ (status (app client (GET_snapshot symbol) up).1 = 200 → n = 4%nat).
Proof.
  unfold app. rewrite serve_log, serve_response, company_snapshot_run.
  unfold snapshot_run, snapshot_calls. cbn [snd].
  destruct (reply (up 0%nat _)) as [profiles|e0] eqn:E0.
  2: { exists 1%nat. cbn [fst snd]. split; [lia|]. split; [reflexivity|].
       split; [intros i c Hi; lia|].
       split; [intros c e [= <-]; cbn [snd]; rewrite E0; intros [= <-];
               apply respond_Err|].
       split; [intros _; left; eexists _, _; split; [reflexivity|exact E0]|].
       split; [lia|]. intros H. exfalso. exact (respond_reply_not_200 _ _ _ E0 H). }
  destruct (truthy profiles) eqn:Et; cbn [negb].
  2: { exists 1%nat. cbn [fst snd]. split; [lia|]. split; [reflexivity|].
       split; [intros i c Hi; lia|].
       split; [intros c e [= <-]; cbn [snd]; rewrite E0; discriminate|].
       split; [intros _; right; split; [reflexivity|]; exists profiles;
               split; [reflexivity|]; intros m rest ->; discriminate|].
       split; [lia|]. discriminate. }
  destruct (profile_fields profiles) as [[[name currency] exchange]|e] eqn:Ep.
  2: { exists 1%nat. cbn [fst snd]. split; [lia|]. split; [reflexivity|].
       split; [intros i c Hi; lia|].
       split; [intros c e' [= <-]; cbn [snd]; rewrite E0; discriminate|].
       split; [intros _; right; split; [reflexivity|]; exists profiles;
               split; [reflexivity|]; intros m rest ->;
               destruct (profile_fields_dict m rest) as [f Hf]; congruence|].
       split; [lia|]. intros H. exfalso.
       rewrite (respond_local Snapshot e) in H; [discriminate|].
       apply (locally_failing_profile_fields profiles). exact Ep. }
  apply profile_fields_shape in Ep as (m & rest & ->).
  destruct (reply (up 1%nat _)) as [il|e1] eqn:E1.
  2: { exists 2%nat. cbn [fst snd]. split; [lia|]. split; [reflexivity|].
       split; [intros [|i] c Hi; [intros [= <-]; eauto|lia]|].
       split; [intros c e [= <-]; cbn [snd]; rewrite E1; intros [= <-];
               apply respond_Err|].
       split; [intros _; left; eexists _, _; split; [reflexivity|exact E1]|].
       split; [eauto|]. intros H. exfalso. exact (respond_reply_not_200 _ _ _ E1 H). }
  destruct (reply (up 2%nat _)) as [bl|e2] eqn:E2.
  2: { exists 3%nat. cbn [fst snd]. split; [lia|]. split; [reflexivity|].
       split; [intros [|[|i]] c Hi; [intros [= <-]; eauto..|lia]|].
       split; [intros c e [= <-]; cbn [snd]; rewrite E2; intros [= <-];
               apply respond_Err|].
       split; [intros _; left; eexists _, _; split; [reflexivity|exact E2]|].
       split; [eauto|]. intros H. exfalso. exact (respond_reply_not_200 _ _ _ E2 H). }
  exists 4%nat.
  assert (Hbefore : ∀ (c3 : call) (i : nat) (c : call), (S i < 4)%nat →
            [(profile_request client symbol, up 0%nat (profile_request client symbol));
             (income_request client symbol 1, up 1%nat (income_request client symbol 1));
             (balance_request client symbol, up 2%nat (balance_request client symbol));
             c3] !! i = Some c → ∃ j, reply c.2 = Ok j).
  { intros c3 [|[|[|i]]] c Hi; [intros [= <-]; eauto..|lia]. }
  destruct (reply (up 3%nat _)) as [cl|e3] eqn:E3; cbn [fst snd].
  - split; [lia|]. split; [reflexivity|]. split; [apply Hbefore|].
    split; [intros c e [= <-]; cbn [snd]; rewrite E3; discriminate|].
    split; [lia|]. split; [eauto|]. reflexivity.
  - split; [lia|]. split; [reflexivity|]. split; [apply Hbefore|].
    split; [intros c e [= <-]; cbn [snd]; rewrite E3; intros [= <-];
            apply respond_Err|].
    split; [lia|]. split; [eauto|]. reflexivity.
Qed.

(** The statement requests of a snapshot run. *)
Example snapshot_statement_requests (client : FMPClient.t) symbol :
  params (income_request client symbol 1)
  = [("symbol", JStr (upper symbol)); ("period", JStr "annual"); ("limit", JInt 1);
     ("apikey", JStr (FMPClient.api_key client))]
  ∧ params (balance_request client symbol) = params (income_request client symbol 1)
  ∧ params (cashflow_request client symbol) = params (income_request client symbol 1).
Proof. repeat split. Qed.

(** ** The spelling of the symbol *)

(** X7. The snapshot and history endpoints do not distinguish spellings
    of a symbol that differ in case only: the calls made and the response
    are the same. *)
Theorem symbol_case_insensitive {L : Lax} (client : FMPClient.t) s1 s2 (up : upstream) :
  upper s1 = upper s2 →
  app client (GET_snapshot s1) up = app client (GET_snapshot s2) up
  ∧ ∀ years, app client (GET_history s1 years) up = app client (GET_history s2 years) up.
Proof.
  intros Hup.
  assert (Hsnap : company_snapshot client s1 = company_snapshot client s2).
  { unfold company_snapshot, build_snapshot, FMPClient.get_company_profile,
      FMPClient.get_income_statement, FMPClient.get_balance_sheet,
      FMPClient.get_cash_flow. rewrite Hup. reflexivity. }
  assert (Hhist : ∀ y, company_history client s1 y = company_history client s2 y).
  { intros y. unfold company_history, FMPClient.get_income_statement.
    rewrite Hup. reflexivity. }
  split.
  - unfold app. rewrite Hsnap. reflexivity.
  - intros years. unfold app. rewrite Hhist. reflexivity.
Qed.

Lemma symbol_case_insensitive_witness :
  app (L:=strict) demo_client (GET_snapshot "aapl") up_apple
  = app (L:=strict) demo_client (GET_snapshot "AaPl") up_apple
  ∧ ∀ years, app (L:=strict) demo_client (GET_history "aapl" years) up_apple
             = app (L:=strict) demo_client (GET_history "AaPl" years) up_apple.
Proof.
  apply (symbol_case_insensitive (L:=strict) demo_client "aapl" "AaPl" up_apple).
  reflexivity.
Defined.

(** ** Nothing to report *)

(** X8. When the income-statement call of an accepted history request
    returns an empty list (or any other falsy body: [null], an empty
    object), the endpoint answers 404 with the detail
    ["No income statement data found"]. *)
Theorem history_no_data {L : Lax} (client : FMPClient.t) symbol years (up : upstream)
    (income_list : json) :
  1 ≤ default 5 years ≤ 20 →
  returns up 0 (income_request client symbol (default 5 years)) income_list →
  truthy income_list = false →
  (app client (GET_history symbol years) up).1
  = {| status := 404; body := Detail "No income statement data found" |}.
Proof.
  intros Hyears Hret Hfalsy. unfold app. rewrite (valid_years _ Hyears).
  rewrite serve_response, (company_history_run _ _ _ _ _ Hret), Hfalsy. reflexivity.
Qed.

Lemma history_no_data_witness :
  (app (L:=strict) demo_client (GET_history "zzzz" None) up_empty).1
  = {| status := 404; body := Detail "No income statement data found" |}.
Proof.
  apply (history_no_data (L:=strict) demo_client "zzzz" None up_empty (JArr [])).
  - simpl. lia.
  - eexists. repeat split; reflexivity.
  - reflexivity.
Defined.

(** X9. When the call of an accepted search returns an empty list, the
    endpoint answers 200 with no results: an empty search is not a 404,
    unlike an empty profile or income statement. *)
Theorem search_no_match {L : Lax} (client : FMPClient.t) q limit (up : upstream) :
  q ≠ EmptyString →
  1 ≤ default 10 limit ≤ 50 →
  returns up 0 (search_request client q (default 10 limit)) (JArr []) →
  (app client (GET_search (Some q) limit) up).1
  = {| status := 200; body := SearchResults (CompanySearchResponse.mk []) |}.
Proof.
  intros Hq Hlimit Hret. unfold app. rewrite (valid_search_query q _ Hq Hlimit).
  rewrite serve_response, (search_companies_run _ _ _ _ _ Hret). reflexivity.
Qed.

Lemma search_no_match_witness :
  (app (L:=strict) demo_client (GET_search (Some "zzzz") None) up_empty).1
  = {| status := 200; body := SearchResults (CompanySearchResponse.mk []) |}.
Proof.
  apply (search_no_match (L:=strict) demo_client "zzzz" None up_empty).
  - discriminate.
  - simpl. lia.
  - eexists. repeat split; reflexivity.
Defined.

(** ** An object where a list is expected *)

Lemma keys_not_records {L : Lax} {B : Type} (f : json → result B) (m : gmap string json) :
  m ≠ ∅ →
  (∀ k, f (JStr k) = Err AttributeError) →
  (items ← py_iter (JObj m); for_each f items) = Err AttributeError.
Proof.
  intros Hm Hf. simpl.
  destruct (map_to_list m) as [|[k v] kvs] eqn:Ekv.
  - apply map_to_list_empty_iff in Ekv. contradiction.
  - simpl. rewrite Hf. reflexivity.
Qed.

(** X10. When a call returns, with a successful status, a non-empty JSON
    object instead of a list (an error message of the provider, say), the
    three endpoints end in a 500: the search and the history loop over
    its keys, which have no [get], and the snapshot looks up the key
    [0]. *)
Theorem object_in_place_of_list {L : Lax} (client : FMPClient.t) (up : upstream)
    (m : gmap string json) :
  m ≠ ∅ →
  (∀ q limit, q ≠ EmptyString → 1 ≤ default 10 limit ≤ 50 →
     returns up 0 (search_request client q (default 10 limit)) (JObj m) →
     (app client (GET_search (Some q) limit) up).1
     = {| status := 500; body := InternalServerError |})
  ∧ (∀ symbol,
       returns up 0 (profile_request client symbol) (JObj m) →
       (app client (GET_snapshot symbol) up).1
       = {| status := 500; body := InternalServerError |})
  ∧ (∀ symbol years, 1 ≤ default 5 years ≤ 20 →
       returns up 0 (income_request client symbol (default 5 years)) (JObj m) →
       (app client (GET_history symbol years) up).1
       = {| status := 500; body := InternalServerError |}).
Proof.
  intros Hm.
  assert (Ht : truthy (JObj m) = true).
  { simpl. rewrite bool_decide_eq_false_2; [reflexivity|exact Hm]. }
  split; [|split].
  - intros q limit Hq Hlimit Hret. unfold app.
    rewrite (valid_search_query q _ Hq Hlimit).
    rewrite serve_response, (search_companies_run _ _ _ _ _ Hret).
    assert (Hloop : (items ← py_iter (JObj m); for_each search_item items)
                    = Err AttributeError)
      by (apply keys_not_records; [exact Hm|reflexivity]).
    simpl in Hloop |- *. rewrite Hloop. reflexivity.
  - intros symbol Hret. apply reply_Ok in Hret. unfold app.
    rewrite serve_response, company_snapshot_run. unfold snapshot_run. cbn [snd].
    rewrite Hret, Ht. reflexivity.
  - intros symbol years Hyears Hret. unfold app. rewrite (valid_years _ Hyears).
    rewrite serve_response, (company_history_run _ _ _ _ _ Hret), Ht.
    assert (Hloop : (items ← py_iter (JObj m); for_each history_point items)
                    = Err AttributeError)
      by (apply keys_not_records; [exact Hm|reflexivity]).
    simpl in Hloop |- *. rewrite Hloop. reflexivity.
Qed.

Lemma object_in_place_of_list_witness :
  (app (L:=strict) demo_client (GET_search (Some "apple") None) up_error_object).1
  = {| status := 500; body := InternalServerError |}
  ∧ (app (L:=strict) demo_client (GET_snapshot "aapl") up_error_object).1
    = {| status := 500; body := InternalServerError |}
  ∧ (app (L:=strict) demo_client (GET_history "aapl" None) up_error_object).1
    = {| status := 500; body := InternalServerError |}.
Proof.
  destruct (object_in_place_of_list (L:=strict) demo_client up_error_object error_object)
    as (Hs & Hp & Hh).
  - vm_compute. discriminate.
  - split; [|split].
    + apply (Hs "apple" None); [discriminate|simpl; lia|].
      eexists. repeat split; reflexivity.
    + apply (Hp "aapl"). eexists. repeat split; reflexivity.
    + apply (Hh "aapl" None); [simpl; lia|]. eexists. repeat split; reflexivity.
Defined.

(** ** The amounts of the snapshot *)

Lemma income_new_Ok {L : Lax} a b i :
  IncomeSnapshot.new a b = Ok i →
  validate_optional validate_float a = Some (IncomeSnapshot.revenue i)
  ∧ validate_optional validate_float b = Some (IncomeSnapshot.netIncome i).
Proof.
  unfold IncomeSnapshot.new.
  destruct (validate_optional validate_float a); [|discriminate].
  destruct (validate_optional validate_float b); [|discriminate].
  intros [= <-]. split; reflexivity.
Qed.

Lemma balance_new_Ok {L : Lax} a b i :
  BalanceSheetSnapshot.new a b = Ok i →
  validate_optional validate_float a = Some (BalanceSheetSnapshot.totalAssets i)
  ∧ validate_optional validate_float b = Some (BalanceSheetSnapshot.totalLiabilities i).
Proof.
  unfold BalanceSheetSnapshot.new.
  destruct (validate_optional validate_float a); [|discriminate].
  destruct (validate_optional validate_float b); [|discriminate].
  intros [= <-]. split; reflexivity.
Qed.

Lemma cashflow_new_Ok {L : Lax} a i :
  CashFlowSnapshot.new a = Ok i →
  validate_optional validate_float a = Some (CashFlowSnapshot.operatingCashFlow i).
Proof.
  unfold CashFlowSnapshot.new.
  destruct (validate_optional validate_float a); [|discriminate].
  intros [= <-]. reflexivity.
Qed.

Lemma validate_optional_float {L : Lax} (f : pyfloat) :
  validate_optional validate_float (JFloat f) = Some (Some f).
Proof. reflexivity. Qed.

(** X11. In a successful snapshot response [revenue], [netIncome] and
    [operatingCashFlow] are the record's field of that name, or, when
    that is absent, null or zero, its field with the suffix [TTM]: a
    reported revenue of zero is replaced by the trailing figure. *)
Theorem snapshot_ttm_fallback {L : Lax} (client : FMPClient.t) symbol (up : upstream)
    snap il cl mi mc :
  (app client (GET_snapshot symbol) up).1 = {| status := 200; body := Snapshot snap |} →
  returns up 1 (income_request client symbol 1) il →
  returns up 3 (cashflow_request client symbol) cl →
  first_or_empty il = Ok (JObj mi) →
  first_or_empty cl = Ok (JObj mc) →
  let income := CompanySnapshot.income snap in
  validate_optional validate_float (py_or (dict_get mi "revenue") (dict_get mi "revenueTTM"))
  = Some (IncomeSnapshot.revenue income)
  ∧ validate_optional validate_float
      (py_or (dict_get mi "netIncome") (dict_get mi "netIncomeTTM"))
    = Some (IncomeSnapshot.netIncome income)
  ∧ validate_optional validate_float
      (py_or (dict_get mc "operatingCashFlow") (dict_get mc "operatingCashFlowTTM"))
    = Some (CashFlowSnapshot.operatingCashFlow (CompanySnapshot.cashFlow snap))
  ∧ (∀ f, dict_get mi "revenue" = JFloat f → truthy (JFloat f) = true →
       IncomeSnapshot.revenue income = Some f)
  ∧ (∀ f, truthy (dict_get mi "revenue") = false → dict_get mi "revenueTTM" = JFloat f →
       IncomeSnapshot.revenue income = Some f)
  ∧ (truthy (dict_get mi "revenue") = false → dict_get mi "revenueTTM" = JNull →
       IncomeSnapshot.revenue income = None).
Proof.
  intros Hresp Hil Hcl Ei Ec income. subst income.
  apply snapshot_200 in Hresp
    as (profiles & p & il' & bl' & cl' & mi' & mb' & mc' & Hans & _ & _ & Ei' & Eb' & Ec' & Hb).
  destruct Hans as (_ & Hil' & _ & Hcl').
  pose proof (returns_inj _ _ _ _ _ Hil Hil') as <-.
  pose proof (returns_inj _ _ _ _ _ Hcl Hcl') as <-.
  assert (mi' = mi) as -> by congruence. assert (mc' = mc) as -> by congruence.
  destruct (build_snapshot_Ok _ _ _ _ _ _ _ _ _ _ _ Ei Eb' Ec Hb)
    as (_ & _ & _ & _ & _ & Hinc & _ & Hcf).
  apply income_new_Ok in Hinc as [Hrev Hnet]. apply cashflow_new_Ok in Hcf.
  split; [exact Hrev|]. split; [exact Hnet|]. split; [exact Hcf|].
  unfold py_or in Hrev. split; [|split].
  - intros f Hf Ht. rewrite Hf, Ht, validate_optional_float in Hrev. congruence.
  - intros f Ht Hf. rewrite Ht, Hf, validate_optional_float in Hrev. congruence.
  - intros Ht Hf. rewrite Ht, Hf in Hrev. simpl in Hrev. congruence.
Qed.

Lemma snapshot_ttm_fallback_witness :
  IncomeSnapshot.revenue (CompanySnapshot.income zero_snapshot) = Some (FFinite false 5 0).
Proof.
  refine (proj1 (proj2 (proj2 (proj2 (proj2
    (snapshot_ttm_fallback (L:=strict) demo_client "aapl" up_zero zero_snapshot
       (JArr [JObj zero_income]) (JArr []) zero_income ∅ _ _ _ _ _)))))
    (FFinite false 5 0) _ _).
  - vm_compute. reflexivity.
  - eexists. repeat split; reflexivity.
  - eexists. repeat split; reflexivity.
  - reflexivity.
  - reflexivity.
  - reflexivity.
  - reflexivity.
Defined.

(** X12. The balance sheet and the currency have no fallback: in a
    successful snapshot response [totalAssets] and [totalLiabilities] are
    the balance-sheet record's fields of those names as they are (a zero
    stays a zero, an absent one stays absent) and [currency] is the
    profile's [currency]. *)
Theorem snapshot_without_fallback {L : Lax} (client : FMPClient.t) symbol (up : upstream)
    snap profiles p bl mb :
  (app client (GET_snapshot symbol) up).1 = {| status := 200; body := Snapshot snap |} →
  returns up 0 (profile_request client symbol) profiles →
  py_getitem0 profiles = Ok (JObj p) →
  returns up 2 (balance_request client symbol) bl →
  first_or_empty bl = Ok (JObj mb) →
  let balance := CompanySnapshot.balanceSheet snap in
  validate_optional validate_float (dict_get mb "totalAssets")
  = Some (BalanceSheetSnapshot.totalAssets balance)
  ∧ validate_optional validate_float (dict_get mb "totalLiabilities")
    = Some (BalanceSheetSnapshot.totalLiabilities balance)
  ∧ validate_optional validate_str (dict_get p "currency")
    = Some (CompanySnapshot.currency snap)
  ∧ (∀ f, dict_get mb "totalAssets" = JFloat f →
       BalanceSheetSnapshot.totalAssets balance = Some f)
  ∧ (dict_get mb "totalAssets" = JNull → BalanceSheetSnapshot.totalAssets balance = None)
  ∧ (∀ s, dict_get p "currency" = JStr s → CompanySnapshot.currency snap = Some s).
Proof.
  intros Hresp Hret Hp Hbl Eb balance. subst balance.
  apply snapshot_200 in Hresp
    as (profiles' & p' & il' & bl' & cl' & mi' & mb' & mc' & Hans & _ & Hp' & Ei' & Eb' & Ec' & Hb).
  destruct Hans as (Hret' & _ & Hbl' & _).
  pose proof (returns_inj _ _ _ _ _ Hret Hret') as <-.
  pose proof (returns_inj _ _ _ _ _ Hbl Hbl') as <-.
  assert (p' = p) as -> by congruence. assert (mb' = mb) as -> by congruence.
  destruct (build_snapshot_Ok _ _ _ _ _ _ _ _ _ _ _ Ei' Eb Ec' Hb)
    as (_ & _ & Hcur & _ & _ & _ & Hbal & _).
  apply balance_new_Ok in Hbal as [Ha Hl].
  split; [exact Ha|]. split; [exact Hl|]. split; [exact Hcur|]. split; [|split].
  - intros f Hf. rewrite Hf, validate_optional_float in Ha. congruence.
  - intros Hf. rewrite Hf in Ha. simpl in Ha. congruence.
  - intros s Hs. rewrite Hs, validate_optional_str in Hcur. congruence.
Qed.

Lemma snapshot_without_fallback_witness :
  BalanceSheetSnapshot.totalAssets (CompanySnapshot.balanceSheet zero_snapshot)
  = Some (FZero false)
  ∧ CompanySnapshot.currency zero_snapshot = Some "USD".
Proof.
  destruct (snapshot_without_fallback (L:=strict) demo_client "aapl" up_zero zero_snapshot
              (JArr [JObj apple_profile]) apple_profile (JArr [JObj zero_balance])
              zero_balance) as (_ & _ & _ & Hassets & _ & Hcur).
  - vm_compute. reflexivity.
  - eexists. repeat split; reflexivity.
  - reflexivity.
  - eexists. repeat split; reflexivity.
  - reflexivity.
  - split; [apply (Hassets (FZero false))|apply (Hcur "USD")]; reflexivity.
Defined.

(** ** All or nothing *)

Lemma for_each_Forall2 {A B : Type} (f : A → result B) (l : list A) (l' : list B) :
  for_each f l = Ok l' → Forall2 (λ x y, f x = Ok y) l l'.
Proof.
  revert l'. induction l as [|x l IH]; intros l'; simpl.
  - intros [= <-]. constructor.
  - destruct (f x) as [y|e] eqn:Ex; [|discriminate].
    destruct (for_each f l) as [ys|e]; [|discriminate].
    intros [= <-]. constructor; [assumption|]. apply IH. reflexivity.
Qed.

Lemma search_item_Ok {L : Lax} item it : search_item item = Ok it → item_accepted item it.
Proof.
  destruct item as [| | | | | |m]; try discriminate.
  rewrite search_item_dict. unfold CompanySearchItem.new. intros Hnew. exists m.
  destruct (validate_str (dict_get m "symbol")); [|discriminate].
  destruct (validate_str (py_or _ _)); [|discriminate].
  destruct (validate_optional validate_str (dict_get m "stockExchange")); [|discriminate].
  destruct (validate_optional validate_str (dict_get m "currency")); [|discriminate].
  injection Hnew as <-. repeat split; reflexivity.
Qed.

Lemma history_point_Ok {L : Lax} row pt : history_point row = Ok pt → row_accepted row pt.
Proof.
  destruct row as [| | | | | |m]; try discriminate.
  unfold history_point, HistoryPoint.new. simpl. intros Hnew. exists m.
  destruct (validate_str (dict_get m "date")); [|discriminate].
  destruct (validate_optional validate_float (dict_get m "revenue")); [|discriminate].
  destruct (validate_optional validate_float (dict_get m "netIncome")); [|discriminate].
  injection Hnew as <-. repeat split; reflexivity.
Qed.

(** X13. A search answers 200 only when every element of the upstream
    body was accepted: the results then correspond to the elements one
    to one and in order, each a record whose values passed the model.
    One rejected element leaves no partial list. *)
Theorem search_all_or_nothing {L : Lax} (client : FMPClient.t) q limit (up : upstream)
    (raw : json) r :
  (app client (GET_search (Some q) limit) up).1
  = {| status := 200; body := SearchResults r |} →
  returns up 0 (search_request client q (default 10 limit)) raw →
  ∃ items, py_iter raw = Ok items
           ∧ Forall2 item_accepted items (CompanySearchResponse.results r)
           ∧ length (CompanySearchResponse.results r) = length items.
Proof.
  intros Hresp Hret. unfold app in Hresp.
  destruct (_ && _); [|discriminate].
  rewrite serve_response, (search_companies_run _ _ _ _ _ Hret) in Hresp.
  apply respond_200 in Hresp as (r' & Hrun & [= <-]); [|discriminate].
  destruct (py_iter raw) as [items|e]; [|discriminate]. simpl in Hrun.
  destruct (for_each search_item items) as [results|e] eqn:Hloop; [|discriminate].
  injection Hrun as <-. simpl. exists items.
  apply for_each_Forall2 in Hloop.
  split; [reflexivity|]. split.
  - eapply Forall2_impl; [exact Hloop|]. intros item it. apply search_item_Ok.
  - symmetry. eapply Forall2_length. exact Hloop.
Qed.

Lemma search_all_or_nothing_witness :
  ∃ items, py_iter (JArr [JObj apple_record]) = Ok items
           ∧ Forall2 (item_accepted (L:=strict)) items
               [CompanySearchItem.mk "AAPL" "Apple Inc." (Some "NASDAQ") (Some "USD")]
           ∧ length [CompanySearchItem.mk "AAPL" "Apple Inc." (Some "NASDAQ") (Some "USD")]
             = length items.
Proof.
  apply (search_all_or_nothing (L:=strict) demo_client "apple" None up_apple_record
           (JArr [JObj apple_record])
           (CompanySearchResponse.mk
              [CompanySearchItem.mk "AAPL" "Apple Inc." (Some "NASDAQ") (Some "USD")])).
  - vm_compute. reflexivity.
  - eexists. repeat split; reflexivity.
Defined.

(** X14. A history request answers 200 only when the upstream body is a
    non-empty list all of whose rows were accepted: the response then
    carries the symbol in upper case and at least one point, the points
    corresponding to the rows one to one and in order. *)
Theorem history_all_or_nothing {L : Lax} (client : FMPClient.t) symbol years
    (up : upstream) (raw : json) h :
  (app client (GET_history symbol years) up).1 = {| status := 200; body := History h |} →
  returns up 0 (income_request client symbol (default 5 years)) raw →
  CompanyHistoryResponse.symbol h = upper symbol
  ∧ CompanyHistoryResponse.points h ≠ []
  ∧ ∃ rows, raw = JArr rows
            ∧ Forall2 row_accepted rows (CompanyHistoryResponse.points h).
Proof.
  intros Hresp Hret. unfold app in Hresp.
  destruct (_ && _); [|discriminate].
  rewrite serve_response, (company_history_run _ _ _ _ _ Hret) in Hresp.
  apply respond_200 in Hresp as (h' & Hrun & [= <-]); [|discriminate].
  destruct (truthy raw) eqn:Ht; [|discriminate]. simpl in Hrun.
  destruct (py_iter raw) as [items|e] eqn:Hiter; [|discriminate]. simpl in Hrun.
  destruct (for_each history_point items) as [points|e] eqn:Hloop; [|discriminate].
  injection Hrun as <-. simpl.
  apply for_each_Forall2 in Hloop.
  assert (Hacc : Forall2 row_accepted items points).
  { eapply Forall2_impl; [exact Hloop|]. intros row pt. apply history_point_Ok. }
  assert (Hne : items ≠ []).
  { destruct raw as [| | | |s|l|m]; try discriminate.
    - destruct s; [discriminate|]. injection Hiter as <-. discriminate.
    - injection Hiter as <-. destruct l; [discriminate|]. discriminate.
    - injection Hiter as <-. simpl in Ht.
      apply negb_true_iff, bool_decide_eq_false in Ht.
      intros Hnil. apply fmap_nil_inv, map_to_list_empty_iff in Hnil. contradiction. }
  split; [reflexivity|]. split.
  - intros ->. apply Forall2_nil_inv_r in Hacc. contradiction.
  - destruct raw as [| | | |s|l|m]; try discriminate.
    + exfalso. destruct s as [|c s]; [discriminate|]. injection Hiter as <-.
      inversion Hacc as [|x y xs ys (m & Hm & _)]. discriminate.
    + injection Hiter as <-. eauto.
    + exfalso. injection Hiter as <-.
      destruct (map_to_list m) as [|[k v] kvs]; [contradiction|].
      inversion Hacc as [|x y xs ys (m' & Hm & _)]. discriminate.
Qed.

Lemma history_all_or_nothing_witness :
  ∃ h,
    (app (L:=strict) demo_client (GET_history "aapl" (Some 3)) up_apple_rows).1
    = {| status := 200; body := History h |}
    ∧ CompanyHistoryResponse.symbol h = upper "aapl"
    ∧ CompanyHistoryResponse.points h ≠ [].
Proof.
  eexists. split; [vm_compute; reflexivity|].
  destruct (history_all_or_nothing (L:=strict) demo_client "aapl" (Some 3) up_apple_rows
              (JArr (JObj <$> apple_rows)) _ eq_refl) as (Hs & Hp & _).
  - eexists. repeat split; reflexivity.
  - split; [exact Hs|exact Hp].
Defined.

(** ** Slashes *)

Lemma rev_app_append (s1 s2 acc : string) :
  String.rev_app (s1 +:+ s2) acc = String.rev_app s2 (String.rev_app s1 acc).
Proof.
  revert acc. induction s1 as [|c s1 IH]; intros acc; simpl; [reflexivity|apply IH].
Qed.

Lemma rstrip_slash_trailing (s : string) : rstrip_slash (s +:+ "/") = rstrip_slash s.
Proof.
  unfold rstrip_slash, String.rev. rewrite rev_app_append. reflexivity.
Qed.

(** X15. Slashes at the joint do not matter: a client made from a base
    URL with one more trailing slash is the same client, and [_get] with
    one more leading slash on the endpoint name makes the same call; so
    any number of either leads to the same request. *)
Theorem slashes_at_the_joint (api_key base_url endpoint : string)
    (ps : list (string * json)) :
  FMPClient.init api_key (base_url +:+ "/") = FMPClient.init api_key base_url
  ∧ FMPClient._get (FMPClient.init api_key (base_url +:+ "/")) ("/" +:+ endpoint) ps
    = FMPClient._get (FMPClient.init api_key base_url) endpoint ps.
Proof.
  unfold FMPClient._get, FMPClient.init. rewrite rstrip_slash_trailing.
  split; reflexivity.
Qed.

(** ** The parameters of a request *)

Lemma params_get_set_other (k k' : string) (v : json) (ps : list (string * json)) :
  k' ≠ k → params_get k' (params_set k v ps) = params_get k' ps.
Proof.
  intros Hne. induction ps as [|[k0 v0] ps IH]; simpl.
  - destruct (String.eqb k' k) eqn:Ek; [|reflexivity].
    apply String.eqb_eq in Ek. contradiction.
  - destruct (String.eqb k k0) eqn:Ek0; simpl.
    + apply String.eqb_eq in Ek0. subst k0.
      destruct (String.eqb k' k) eqn:Ek; [|reflexivity].
      apply String.eqb_eq in Ek. contradiction.
    + destruct (String.eqb k' k0); [reflexivity|exact IH].
Qed.

Lemma params_set_length (k : string) (v : json) (ps : list (string * json)) :
  length (params_set k v ps)
  = match params_get k ps with Some _ => length ps | None => S (length ps) end.
Proof.
  induction ps as [|[k0 v0] ps IH]; simpl; [reflexivity|].
  destruct (String.eqb k k0); simpl; [reflexivity|].
  rewrite IH. destruct (params_get k ps); reflexivity.
Qed.

(** X16. Whatever parameters a caller hands to [_get], the one call it
    makes carries the client's key as [apikey], also when the caller
    passed an [apikey] of its own, which is replaced and not repeated;
    every other parameter is sent as given, and the timeout is ten
    seconds. *)
Theorem get_sets_key (self : FMPClient.t) endpoint (ps : list (string * json))
    (up : upstream) (log : list call) :
  ∃ rq,
    (FMPClient._get self endpoint ps up log).2 = log ++ [(rq, up (length log) rq)]
    ∧ params_get "apikey" (params rq) = Some (JStr (FMPClient.api_key self))
    ∧ (∀ k, k ≠ "apikey" → params_get k (params rq) = params_get k ps)
    ∧ length (params rq)
      = match params_get "apikey" ps with Some _ => length ps | None => S (length ps) end
    ∧ timeout rq = 10.
Proof.
  exists (request_of self endpoint ps). rewrite get_run. simpl.
  split; [reflexivity|]. split; [apply params_get_set|].
  split; [intros k Hk; apply params_get_set_other; exact Hk|].
  split; [apply params_set_length|reflexivity].
Qed.

(** ** The detail of a 502 *)

Lemma str_prefix_unique (n : nat) (s excerpt rest : string) :
  s = excerpt +:+ rest →
  String.length excerpt = Nat.min n (String.length s) →
  excerpt = str_prefix n s.
Proof.
  unfold str_prefix. revert n s. induction excerpt as [|c excerpt IH]; intros n s -> Hlen.
  - destruct n as [|n]; [destruct rest; reflexivity|].
    destruct rest; [reflexivity|discriminate].
  - destruct n as [|n]; [discriminate|]. simpl in *. f_equal.
    apply IH; [reflexivity|]. lia.
Qed.

(** X17. The service answers 502 with a given detail exactly when a call
    of the run was answered either with a status from 400 to 599, the
    detail then being ["FMP API error: "], the status in decimal, a space
    and the first 200 characters of the body (the whole body when it has
    fewer), or with a successful status and a body for which
    [resp.json()] raised [RecursionError], the detail then being the
    message of that exception. *)
Theorem bad_gateway_detail {L : Lax} (client : FMPClient.t) rq (up : upstream)
    (detail : string) :
  (app client rq up).1 = {| status := 502; body := Detail detail |}
  ↔ ∃ c resp,
      c ∈ (app client rq up).2 ∧ c.2 = Responded resp
      ∧ (ok resp = false
         ∧ (∃ excerpt rest,
              detail = "FMP API error: " +:+ str_of_int (status_code resp) +:+ " "
                         +:+ excerpt
              ∧ text resp = excerpt +:+ rest
              ∧ String.length excerpt = Nat.min 200 (String.length (text resp)))
         ∨ ok resp = true ∧ json_body resp = TooDeep detail).
Proof.
  destruct (app_disciplined client rq up) as (_ & Hstop & Hcases).
  split.
  - intros Hresp.
    destruct Hcases as [[_ Happ]|[_ [H200|(e & He & Hexp)]]].
    + rewrite Happ in Hresp. discriminate.
    + rewrite Hresp in H200. discriminate.
    + rewrite He in Hresp.
      destruct (explained_502 _ _ _ Hexp Hresp) as (c & resp & Hc & Ho & Hwhy).
      exists c, resp. split; [exact Hc|]. split; [exact Ho|].
      destruct Hwhy as [[Hok ->]|[Hok Hj]]; [left|right; auto].
      split; [exact Hok|].
      destruct (str_prefix_split 200 (text resp)) as (rest & Hsplit & Hlen).
      exists (str_prefix 200 (text resp)), rest. auto.
  - intros (c & resp & Hc & Ho & [(Hok & excerpt & rest & -> & Hsplit & Hlen)|[Hok Hj]]).
    + rewrite (str_prefix_unique 200 _ _ _ Hsplit Hlen).
      rewrite (Hstop c (RuntimeError (FMPClient.error_message resp)) Hc); [reflexivity|].
      rewrite Ho. simpl. rewrite Hok. reflexivity.
    + rewrite (Hstop c (RecursionError detail) Hc); [reflexivity|].
      rewrite Ho. simpl. rewrite Hok. unfold resp_json. rewrite Hj. reflexivity.
Qed.

(** The detail after a 500 with the body ["Internal error"]. *)
Lemma bad_gateway_detail_witness :
  (app (L:=strict) demo_client (GET_snapshot "aapl") up_500).1
  = {| status := 502; body := Detail "FMP API error: 500 Internal error" |}.
Proof.
  apply (bad_gateway_detail (L:=strict) demo_client (GET_snapshot "aapl") up_500).
  exists (profile_request demo_client "aapl", Responded http_500), http_500.
  split; [vm_compute; apply list_elem_of_here|]. split; [reflexivity|].
  left. split; [reflexivity|]. exists "Internal error", EmptyString.
  repeat split.
Defined.

(** ** The configuration *)

(** X18. The module loads exactly when the environment sets a non-empty
    [FMP_API_KEY]. The client the endpoints then get sends every call
    with that key, to an endpoint under the configured base URL without
    its trailing slashes, or under
    [https://financialmodelingprep.com/stable] when none is configured. *)
Theorem configured_client {L : Lax} (environ : gmap string string) :
  ((∃ cfg, load environ = Ok cfg)
   ↔ ∃ k, environ !! "FMP_API_KEY" = Some k ∧ k ≠ EmptyString)
  ∧ ∀ cfg rq (up : upstream) (c : call),
      load environ = Ok cfg →
      c ∈ (app (get_client cfg) rq up).2 →
      params_get "apikey" (params c.1)
      = Some (JStr (default EmptyString (environ !! "FMP_API_KEY")))
      ∧ ∃ endpoint,
          endpoint ∈ endpoint_names
          ∧ url c.1
            = rstrip_slash (default "https://financialmodelingprep.com/stable"
                              (environ !! "FMP_BASE_URL"))
              +:+ "/" +:+ endpoint.
Proof.
  split.
  - unfold load. destruct (environ !! "FMP_API_KEY") as [k|].
    + destruct (String.eqb k EmptyString) eqn:Ek.
      * apply String.eqb_eq in Ek. split; [intros [cfg H]; discriminate|].
        intros (k' & [= <-] & Hne). contradiction.
      * apply String.eqb_neq in Ek. split; eauto.
    + split; [intros [cfg H]; discriminate|]. intros (k & H & _). discriminate.
  - intros cfg rq up c Hload Hc.
    destruct (app_disciplined (get_client cfg) rq up) as (Hsent & _).
    rewrite Forall_forall in Hsent.
    destruct (sent_by_shape _ _ (Hsent c Hc)) as (endpoint & Hin & Hurl & Hkey).
    unfold load in Hload. destruct (environ !! "FMP_API_KEY") as [k|]; [|discriminate].
    destruct (String.eqb k EmptyString); [discriminate|]. injection Hload as <-.
    split; [exact Hkey|]. exists endpoint. split; [exact Hin|exact Hurl].
Qed.

Lemma configured_client_witness :
  params_get "apikey" (params (profile_request configured_demo_client "aapl"))
  = Some (JStr "demo")
  ∧ ∃ endpoint,
      endpoint ∈ endpoint_names
      ∧ url (profile_request configured_demo_client "aapl")
        = "https://example.test/api" +:+ "/" +:+ endpoint.
Proof.
  destruct (configured_client (L:=strict) demo_environ) as [_ H].
  apply (H {| FMP_API_KEY := "demo"; FMP_BASE_URL := "https://example.test/api//" |}
           (GET_snapshot "aapl") up_empty
           (profile_request configured_demo_client "aapl", http_ok (JArr []))).
  - vm_compute. reflexivity.
  - vm_compute. apply list_elem_of_here.
Defined.

(** ** When the service answers 404 *)

Lemma respond_reply_Err {A : Type} (render : A → content) (o : outcome) (e : exn) :
  reply o = Err e → status (respond render (Err e)) ≠ 404.
Proof.
  intros Hr. apply reply_Err in Hr
    as [(resp & _ & _ & ->)|[(resp & _ & _ & _ & ->)
       |[(resp & msg & _ & _ & _ & ->)|[[_ ->]|[_ ->]]]]]; discriminate.
Qed.

Lemma respond_pure {A : Type} (render : A → content) (r : result A) :
  locally_failing r → status (respond render r) ≠ 404.
Proof.
  intros Hr. destruct r as [a|e]; [discriminate|].
  rewrite (respond_local render e); [discriminate|]. apply Hr. reflexivity.
Qed.

Lemma result_bind_Ok {A B : Type} (a : A) (k : A → result B) : (Ok a ≫= k) = k a.
Proof. reflexivity. Qed.

Lemma result_bind_Err {A B : Type} (e : exn) (k : A → result B) :
  (Err e ≫= k) = Err e.
Proof. reflexivity. Qed.

Lemma search_companies_result {L : Lax} client q limit up :
  (search_companies client q limit up []).1
  = (raw ← reply (up 0%nat (search_request client q limit));
     items ← py_iter raw;
     results ← for_each search_item items;
     mret (CompanySearchResponse.mk results)).
Proof.
  unfold search_companies, FMPClient.search_symbol.
  unfold mbind at 1, M_bind at 1. rewrite get_run. simpl.
  fold (search_request client q limit).
  destruct (reply (up 0%nat (search_request client q limit))); reflexivity.
Qed.

Lemma company_history_result {L : Lax} client symbol years up :
  (company_history client symbol years up []).1
  = (income_list ← reply (up 0%nat (income_request client symbol years));
     if negb (truthy income_list)
     then Err (HTTPException 404 "No income statement data found")
     else (rows ← py_iter income_list;
           points ← for_each history_point rows;
           mret (CompanyHistoryResponse.mk (upper symbol) points))).
Proof.
  unfold company_history, FMPClient.get_income_statement.
  unfold mbind at 1, M_bind at 1. rewrite get_run. simpl.
  fold (statement_params symbol years). fold (income_request client symbol years).
  destruct (reply (up 0%nat (income_request client symbol years))) as [j|e];
    [|reflexivity].
  simpl. destruct (truthy j); reflexivity.
Qed.

(** X19. The snapshot endpoint answers 404 exactly when its profile call
    returns a falsy body (an empty list, [null], an empty object), and an
    accepted history request exactly when its income-statement call does;
    the search endpoint never answers 404. *)
Theorem not_found_iff {L : Lax} (client : FMPClient.t) (up : upstream) :
  (∀ symbol,
     status (app client (GET_snapshot symbol) up).1 = 404
     ↔ ∃ j, returns up 0 (profile_request client symbol) j ∧ truthy j = false)
  ∧ (∀ symbol years, 1 ≤ default 5 years ≤ 20 →
       (status (app client (GET_history symbol years) up).1 = 404
        ↔ ∃ j, returns up 0 (income_request client symbol (default 5 years)) j
               ∧ truthy j = false))
  ∧ (∀ q limit, status (app client (GET_search q limit) up).1 ≠ 404).
Proof.
  split; [|split].
  - intros symbol. unfold app. rewrite serve_response, company_snapshot_run.
    unfold snapshot_run. cbn [snd].
    destruct (reply (up 0%nat (profile_request client symbol))) as [profiles|e] eqn:E0.
    + assert (Hiff : (∃ j, returns up 0 (profile_request client symbol) j
                           ∧ truthy j = false) ↔ truthy profiles = false).
      { split.
        - intros (j & Hj & Ht). apply reply_Ok in Hj. congruence.
        - intros Ht. exists profiles. split; [apply reply_Ok; exact E0|exact Ht]. }
      rewrite Hiff. destruct (truthy profiles); cbn [negb fst].
      * split; [|discriminate]. intros Hs. exfalso. revert Hs.
        destruct (profile_fields profiles) as [[[name currency] exchange]|e] eqn:Ep.
        2: { apply respond_pure. intros e' [= <-].
             apply (locally_failing_profile_fields profiles). exact Ep. }
        destruct (reply (up 1%nat _)) as [il|e] eqn:E1;
          [|apply (respond_reply_Err _ _ _ E1)].
        destruct (reply (up 2%nat _)) as [bl|e] eqn:E2;
          [|apply (respond_reply_Err _ _ _ E2)].
        destruct (reply (up 3%nat _)) as [cl|e] eqn:E3;
          [|apply (respond_reply_Err _ _ _ E3)].
        apply respond_pure, locally_failing_build_snapshot.
      * split; reflexivity.
    + split.
      * intros Hs. exfalso. exact (respond_reply_Err _ _ _ E0 Hs).
      * intros (j & Hj & _). apply reply_Ok in Hj. congruence.
  - intros symbol years Hyears. unfold app. rewrite (valid_years _ Hyears).
    rewrite serve_response, company_history_result.
    destruct (reply (up 0%nat _)) as [j|e] eqn:E0;
      [rewrite result_bind_Ok|rewrite result_bind_Err].
    + assert (Hiff : (∃ j', returns up 0
                              (income_request client symbol (default 5 years)) j'
                            ∧ truthy j' = false) ↔ truthy j = false).
      { split.
        - intros (j' & Hj & Ht). apply reply_Ok in Hj. congruence.
        - intros Ht. exists j. split; [apply reply_Ok; exact E0|exact Ht]. }
      rewrite Hiff. destruct (truthy j); cbn [negb].
      * split; [|discriminate]. intros Hs. exfalso. revert Hs.
        apply respond_pure. local_steps.
        apply locally_failing_for_each, locally_failing_history_point.
      * split; reflexivity.
    + split.
      * intros Hs. exfalso. exact (respond_reply_Err _ _ _ E0 Hs).
      * intros (j & Hj & _). apply reply_Ok in Hj. congruence.
  - intros q limit. unfold app. destruct q as [q|]; [|discriminate].
    destruct (_ && _); [|discriminate].
    rewrite serve_response, search_companies_result.
    destruct (reply (up 0%nat _)) as [raw|e] eqn:E0;
      [rewrite result_bind_Ok|rewrite result_bind_Err].
    + apply respond_pure. local_steps.
      apply locally_failing_for_each, locally_failing_search_item.
    + exact (respond_reply_Err _ _ _ E0).
Qed.

Lemma not_found_iff_witness :
  status (app (L:=strict) demo_client (GET_history "zzzz" (Some 3)) up_empty).1 = 404
  ∧ status (app (L:=strict) demo_client (GET_search (Some "zzzz") None) up_empty).1 ≠ 404.
Proof.
  destruct (not_found_iff (L:=strict) demo_client up_empty) as (_ & Hh & Hs).
  split; [|apply Hs].
  apply (Hh "zzzz" (Some 3)); [simpl; lia|].
  exists (JArr []). split; [|reflexivity]. eexists. repeat split; reflexivity.
Defined.
